(** * PolicyRadar: the policies router, embedded and verified

    A shallow embedding of [app/api/routers/policies.py] and of the part of
    [data/models/policy.py] it reads.  The relational store is a record of
    row lists that every handler takes and (for writes) returns; a handler
    answers with a [Response]: the payload, or the HTTP error it raises. *)

From Stdlib Require Import List String Ascii Bool ZArith QArith Lia.
From Stdlib Require Import Sorting.Sorted Sorting.Permutation.
Import ListNotations.
Local Open Scope string_scope.
Local Open Scope Z_scope.

Set Implicit Arguments.

(** ** Enumerations of [data/models/policy.py] *)

Inductive PolicyStatus : Type :=
  | DRAFT | PROPOSED | ENACTED | IMPLEMENTED | AMENDED | REPEALED | EXPIRED.

Inductive PolicyType : Type :=
  | LEGISLATION | REGULATION | EXECUTIVE_ORDER
  | GUIDANCE | STANDARD | AGREEMENT.

Definition PolicyStatus_eqb (a b : PolicyStatus) : bool :=
  match a, b with
  | DRAFT, DRAFT | PROPOSED, PROPOSED | ENACTED, ENACTED
  | IMPLEMENTED, IMPLEMENTED | AMENDED, AMENDED
  | REPEALED, REPEALED | EXPIRED, EXPIRED => true
  | _, _ => false
  end.

(** The member name, which is what [Enum(PolicyStatus)] persists and what a
    bound string parameter is looked up against. *)
Definition PolicyStatus_name (s : PolicyStatus) : string :=
  match s with
  | DRAFT => "DRAFT" | PROPOSED => "PROPOSED" | ENACTED => "ENACTED"
  | IMPLEMENTED => "IMPLEMENTED" | AMENDED => "AMENDED"
  | REPEALED => "REPEALED" | EXPIRED => "EXPIRED"
  end.

(** The member value, the lower-case string on the right of each member. *)
Definition PolicyStatus_value (s : PolicyStatus) : string :=
  match s with
  | DRAFT => "draft" | PROPOSED => "proposed" | ENACTED => "enacted"
  | IMPLEMENTED => "implemented" | AMENDED => "amended"
  | REPEALED => "repealed" | EXPIRED => "expired"
  end.

Definition all_statuses : list PolicyStatus :=
  [DRAFT; PROPOSED; ENACTED; IMPLEMENTED; AMENDED; REPEALED; EXPIRED].

Definition PolicyStatus_of_name (n : string) : option PolicyStatus :=
  find (fun s => String.eqb (PolicyStatus_name s) n) all_statuses.

(** ** Python values that meet in a comparison

    [PolicyStatus] derives from [enum.Enum] alone (no [str] mix-in), so [==]
    between a member and a string falls back to identity and is [False]. *)
Inductive PyValue : Type :=
  | PyEnum (s : PolicyStatus)
  | PyStr (s : string).

Definition py_eq (a b : PyValue) : bool :=
  match a, b with
  | PyEnum x, PyEnum y => PolicyStatus_eqb x y
  | PyStr x, PyStr y => String.eqb x y
  | _, _ => false
  end.

(** Truthiness of the optional query parameters tested with [if x:]. *)
Definition truthy_str (x : option string) : option string :=
  match x with
  | Some s => if String.eqb s "" then None else Some s
  | None => None
  end.

Definition truthy_int (x : option Z) : option Z :=
  match x with
  | Some n => if Z.eqb n 0 then None else Some n
  | None => None
  end.

(** ** Floating-point columns

    [estimated_impact] and [impact_confidence] are [Float] columns.  The
    development is generic in the carrier: the operations the router uses
    are the fields of [FloatOps], and the ordering laws that the database
    guarantees for ORDER BY are stated apart, in [FloatOrder]. *)
Class FloatOps (F : Type) : Type := {
  fof_Z : Z -> F;          (* an int used where a float is expected *)
  flit : Q -> F;           (* the float a decimal literal denotes *)
  fadd : F -> F -> F;      (* [+], as folded by [sum] *)
  fdiv : F -> F -> F;      (* true division [/] *)
  fleb : F -> F -> bool;   (* [<=] of the store *)
  feqb : F -> F -> bool    (* [==] of Python *)
}.

Definition fltb {F} `{FloatOps F} (x y : F) : bool := negb (fleb y x).

Class FloatOrder (F : Type) `{FloatOps F} : Prop := {
  fleb_total : forall x y : F, fleb x y = true \/ fleb y x = true;
  fleb_trans : forall x y z : F,
      fleb x y = true -> fleb y z = true -> fleb x z = true
}.

(** Naive datetimes, as microseconds since the epoch: the [DateTime]
    columns hold no time zone. *)
Definition datetime : Type := Z.

Definition timedelta_days (days : Z) : Z := days * 86400000000.

(** ** Strings in the store

    A [string] holds the UTF-8 bytes of a Python [str].  The store counts
    the length of a VARCHAR value in characters, that is in bytes that do
    not continue a character. *)
Definition is_continuation (c : ascii) : bool :=
  let n := nat_of_ascii c in Nat.leb 128 n && Nat.ltb n 192.

(** The first [n] characters of a byte sequence, and what follows them. *)
Fixpoint take_chars (n : nat) (l : list ascii) : list ascii * list ascii :=
  match l with
  | [] => ([], [])
  | c :: l' =>
      if is_continuation c then
        let (kept, rest) := take_chars n l' in (c :: kept, rest)
      else
        match n with
        | O => ([], l)
        | S n' => let (kept, rest) := take_chars n' l' in (c :: kept, rest)
        end
  end.


(** What a [String(n)] column keeps of a value: the value when it has at
    most [n] characters, its first [n] characters when all that follows
    them is spaces, and nothing (the statement is refused) otherwise. *)
Definition varchar_store (n : nat) (s : string) : option string :=
  let (kept, rest) := take_chars n (list_ascii_of_string s) in
  if forallb (Ascii.eqb " "%char) rest
  then Some (string_of_list_ascii kept) else None.

Definition varchar_opt_store (n : nat) (s : option string)
  : option (option string) :=
  match s with
  | Some x => option_map Some (varchar_store n x)
  | None => Some None
  end.

(** The driver refuses a string that holds a NUL character. *)
Definition has_nul (s : string) : bool :=
  existsb (Ascii.eqb Ascii.zero) (list_ascii_of_string s).

Definition has_nul_opt (s : option string) : bool :=
  match s with Some x => has_nul x | None => false end.

(** OFFSET is a 64-bit integer in the store. *)
Definition bigint_max : Z := 9223372036854775807.

(** ** Rows and schemas of [data/models/policy.py] *)

Section Model.
Context {F : Type} `{FloatOps F}.

(** [Policy]: the columns of [Base] that the store fills in, then the
    columns of the model in declaration order. *)
Record Policy : Type := mkPolicy {
  id : Z;
  created_at : datetime;
  updated_at : datetime;
  title : string;
  description : option string;
  policy_number : string;
  jurisdiction : string;
  policy_type : PolicyType;
  status : PolicyStatus;
  proposed_date : option datetime;
  enacted_date : option datetime;
  effective_date : option datetime;
  expiration_date : option datetime;
  regulatory_body : option string;
  authority : option string;
  content_summary : option string;
  full_text_url : option string;
  source_url : option string;
  estimated_impact : option F;
  impact_confidence : option F;
  affected_industries : option (list string);
  category_id : option Z
}.

(** [PolicySchema]: the request body of POST and PUT and the response
    model of the single-policy routes. *)
Record PolicySchema : Type := mkPolicySchema {
  s_id : option Z;
  s_title : string;
  s_description : option string;
  s_policy_number : string;
  s_jurisdiction : string;
  s_policy_type : PolicyType;
  s_status : PolicyStatus;
  s_proposed_date : option datetime;
  s_enacted_date : option datetime;
  s_effective_date : option datetime;
  s_expiration_date : option datetime;
  s_regulatory_body : option string;
  s_authority : option string;
  s_content_summary : option string;
  s_full_text_url : option string;
  s_source_url : option string;
  s_estimated_impact : option F;
  s_impact_confidence : option F;
  s_affected_industries : option (list string);
  s_category_id : option Z
}.

Record PolicyChange : Type := mkPolicyChange {
  c_id : Z;
  c_policy_id : Z;
  c_change_type : string;
  c_change_date : datetime;
  c_change_description : option string;
  c_impact_magnitude : option F;
  c_impact_direction : option string;
  c_source_document : option string;
  c_legislative_session : option string
}.

Record PolicyCategory : Type := mkPolicyCategory {
  cat_id : Z;
  cat_name : string;
  cat_description : option string;
  cat_parent_category_id : option Z
}.

(** Of [ImpactAssessment] only the key and the foreign key into
    [policies] matter to this router. *)
Record ImpactAssessment : Type := mkImpactAssessment {
  ia_id : Z;
  ia_policy_id : Z
}.

(** The session's view of the store: the tables in heap order and the
    sequence behind [policies.id]. *)
Record DB : Type := mkDB {
  policies : list Policy;
  policy_changes : list PolicyChange;
  policy_categories : list PolicyCategory;
  impact_assessments : list ImpactAssessment;
  policies_id_seq : Z
}.

(** What a handler answers: the payload, or the [HTTPException] raised
    (status code and the fixed part of its detail). *)
Inductive Response (A : Type) : Type :=
  | Ok (a : A)
  | HTTPError (status_code : Z) (detail : string).
Arguments HTTPError {A} status_code detail.

(** [from_attributes]: the response model read off a row. *)
Definition to_schema (p : Policy) : PolicySchema :=
  mkPolicySchema (Some (id p)) (title p) (description p) (policy_number p)
    (jurisdiction p) (policy_type p) (status p) (proposed_date p)
    (enacted_date p) (effective_date p) (expiration_date p)
    (regulatory_body p) (authority p) (content_summary p) (full_text_url p)
    (source_url p) (estimated_impact p) (impact_confidence p)
    (affected_industries p) (category_id p).

(** The row built in [create_policy] from [policy.dict(exclude=id)], with
    the key the sequence hands out and the [created_at]/[updated_at]
    defaults. *)
Definition Policy_of_schema (new_id : Z) (now : datetime) (s : PolicySchema)
  : Policy :=
  mkPolicy new_id now now (s_title s) (s_description s) (s_policy_number s)
    (s_jurisdiction s) (s_policy_type s) (s_status s) (s_proposed_date s)
    (s_enacted_date s) (s_effective_date s) (s_expiration_date s)
    (s_regulatory_body s) (s_authority s) (s_content_summary s)
    (s_full_text_url s) (s_source_url s) (s_estimated_impact s)
    (s_impact_confidence s) (s_affected_industries s) (s_category_id s).

(** The [setattr] loop of [update_policy]: every schema field but [id] is
    overwritten; [created_at] stays and [onupdate] refreshes [updated_at]. *)
Definition Policy_overwrite (old : Policy) (now : datetime) (s : PolicySchema)
  : Policy :=
  mkPolicy (id old) (created_at old) now (s_title s) (s_description s)
    (s_policy_number s) (s_jurisdiction s) (s_policy_type s) (s_status s)
    (s_proposed_date s) (s_enacted_date s) (s_effective_date s)
    (s_expiration_date s) (s_regulatory_body s) (s_authority s)
    (s_content_summary s) (s_full_text_url s) (s_source_url s)
    (s_estimated_impact s) (s_impact_confidence s) (s_affected_industries s)
    (s_category_id s).

(** ** Declared constraints of the [policies] table *)

(** A payload that the driver refuses to send. *)
Definition payload_has_nul (s : PolicySchema) : bool :=
  has_nul (s_title s) || has_nul_opt (s_description s)
  || has_nul (s_policy_number s) || has_nul (s_jurisdiction s)
  || has_nul_opt (s_regulatory_body s) || has_nul_opt (s_authority s)
  || has_nul_opt (s_content_summary s) || has_nul_opt (s_full_text_url s)
  || has_nul_opt (s_source_url s)
  || match s_affected_industries s with
     | Some tags => existsb has_nul tags
     | None => false
     end.

(** The payload as its [String(n)] columns keep it; [None] when one of
    them refuses its value. *)
Definition store_schema (s : PolicySchema) : option PolicySchema :=
  match varchar_store 500 (s_title s),
        varchar_store 100 (s_policy_number s),
        varchar_store 10 (s_jurisdiction s),
        varchar_opt_store 200 (s_regulatory_body s),
        varchar_opt_store 200 (s_authority s),
        varchar_opt_store 500 (s_full_text_url s),
        varchar_opt_store 500 (s_source_url s) with
  | Some t, Some pn, Some j, Some rb, Some au, Some fu, Some su =>
      Some (mkPolicySchema (s_id s) t (s_description s) pn j
              (s_policy_type s) (s_status s) (s_proposed_date s)
              (s_enacted_date s) (s_effective_date s) (s_expiration_date s)
              rb au (s_content_summary s) fu su (s_estimated_impact s)
              (s_impact_confidence s) (s_affected_industries s)
              (s_category_id s))
  | _, _, _, _, _, _, _ => None
  end.

Definition category_fk_ok (db : DB) (p : Policy) : bool :=
  match category_id p with
  | Some c => existsb (fun k => Z.eqb (cat_id k) c) (policy_categories db)
  | None => true
  end.

(** A row may join [others] when its key and its [policy_number] are
    unused there and its category exists. *)
Definition row_accepted (db : DB) (others : list Policy) (p : Policy) : bool :=
  negb (existsb (fun r => Z.eqb (id r) (id p)) others)
  && negb (existsb (fun r => String.eqb (policy_number r) (policy_number p))
             others)
  && category_fk_ok db p.

(** Rows that point at policy [pid].  Neither relationship declares a
    cascade and both foreign keys are NOT NULL, so the parent cannot be
    removed while such rows exist. *)
Definition has_dependents (db : DB) (pid : Z) : bool :=
  existsb (fun c => Z.eqb (c_policy_id c) pid) (policy_changes db)
  || existsb (fun a => Z.eqb (ia_policy_id a) pid) (impact_assessments db).

(** ** Parameter validation declared with [Query(default, ge=, le=)] *)

Definition check_ge (ge : option Z) (v : Z) : bool :=
  match ge with Some b => Z.leb b v | None => true end.

Definition check_le (le : option Z) (v : Z) : bool :=
  match le with Some b => Z.leb v b | None => true end.

Definition Query_int (default : Z) (ge le : option Z) (raw : option Z)
  : Response Z :=
  match raw with
  | None => Ok default
  | Some v =>
      if check_ge ge v && check_le le v then Ok v
      else HTTPError 422 "validation error"
  end.

(** [query.offset(skip).limit(limit)] on validated bounds. *)
Definition offset_limit {A} (skip limit : Z) (l : list A) : list A :=
  firstn (Z.to_nat limit) (skipn (Z.to_nat skip) l).

(** The page, when the store takes the offset; [None] when the offset is
    out of its range and the statement fails. *)
Definition paginate {A} (skip limit : Z) (l : list A) : option (list A) :=
  if Z.leb skip bigint_max then Some (offset_limit skip limit l) else None.

(** [db.query(Policy).filter(Policy.id == policy_id).first()] *)
Definition first_by_id (db : DB) (policy_id : Z) : option Policy :=
  find (fun p => Z.eqb (id p) policy_id) (policies db).

End Model.

Arguments Policy F : clear implicits.
Arguments PolicySchema F : clear implicits.
Arguments PolicyChange F : clear implicits.
Arguments DB F : clear implicits.
Arguments HTTPError {A} status_code detail.

(** ** What the store evaluates: WHERE, ORDER BY, ILIKE *)

(** SQL truth values: [None] is NULL, and WHERE keeps a row only when its
    condition is [Some true]. *)
Definition sql_or (a b : option bool) : option bool :=
  match a, b with
  | Some true, _ | _, Some true => Some true
  | Some false, Some false => Some false
  | _, _ => None
  end.

Definition sql_is_true (a : option bool) : bool :=
  match a with Some true => true | _ => false end.

Definition sql_cmp {A B} (cmp : A -> B -> bool) (col : option A) (v : B)
  : option bool :=
  match col with Some x => Some (cmp x v) | None => None end.

(** ORDER BY: a stable insertion sort on a boolean order of the keys. *)
Fixpoint order_insert {A} (leb : A -> A -> bool) (x : A) (l : list A)
  : list A :=
  match l with
  | [] => [x]
  | y :: l' => if leb x y then x :: y :: l' else y :: order_insert leb x l'
  end.

Fixpoint order_by {A} (leb : A -> A -> bool) (l : list A) : list A :=
  match l with
  | [] => []
  | x :: l' => order_insert leb x (order_by leb l')
  end.

(** The relation a boolean order decides. *)
Definition ordered_by {A} (leb : A -> A -> bool) (x y : A) : Prop :=
  leb x y = true.

(** [.asc()] puts NULL keys last, [.desc()] puts them first. *)
Definition asc_nulls_last {K} (leb : K -> K -> bool) (a b : option K) : bool :=
  match a, b with
  | _, None => true
  | None, Some _ => false
  | Some x, Some y => leb x y
  end.

Definition desc_nulls_first {K} (leb : K -> K -> bool) (a b : option K)
  : bool :=
  match a, b with
  | None, _ => true
  | Some _, None => false
  | Some x, Some y => leb y x
  end.

(** ILIKE patterns: [%] is any run of characters, [_] any one character,
    a backslash quotes the character after it. *)
Inductive like_tok : Type :=
  | AnyRun
  | AnyOne
  | Lit (c : ascii).

(** ILIKE compares letters by their lower-case form.  On ASCII text that
    is the folding of A to Z onto a to z; how text outside ASCII is folded
    depends on the locale of the database and is left out here, so the
    statements on what a search matches speak of ASCII text. *)
Definition lower_ascii (c : ascii) : ascii :=
  let n := nat_of_ascii c in
  if Nat.leb 65 n && Nat.leb n 90 then ascii_of_nat (n + 32) else c.

Definition ci_eqb (a b : ascii) : bool :=
  Ascii.eqb (lower_ascii a) (lower_ascii b).

Definition like_tok_of (c : ascii) : like_tok :=
  if Ascii.eqb c "%"%char then AnyRun
  else if Ascii.eqb c "_"%char then AnyOne else Lit c.

(** [escaped] tells that the previous character was an unquoted backslash;
    a pattern that ends there is refused by the store. *)
Fixpoint like_parse (escaped : bool) (p : list ascii)
  : option (list like_tok) :=
  match p with
  | [] => if escaped then None else Some []
  | c :: p' =>
      if escaped then option_map (cons (Lit c)) (like_parse false p')
      else if Ascii.eqb c "\"%char then like_parse true p'
      else option_map (cons (like_tok_of c)) (like_parse false p')
  end.

Fixpoint like_match (p : list like_tok) (s : list ascii) : bool :=
  match p with
  | [] => match s with [] => true | _ :: _ => false end
  | AnyRun :: p' =>
      (fix run (s : list ascii) : bool :=
         like_match p' s
         || match s with [] => false | _ :: s' => run s' end) s
  | AnyOne :: p' =>
      match s with [] => false | _ :: s' => like_match p' s' end
  | Lit c :: p' =>
      match s with
      | [] => false
      | d :: s' => ci_eqb c d && like_match p' s'
      end
  end.

(** [col.ilike(pattern)]: NULL on a NULL column; [None] outside when the
    pattern is malformed. *)
Definition ilike (col : option string) (pattern : string)
  : option (option bool) :=
  match like_parse false (list_ascii_of_string pattern) with
  | None => None
  | Some toks =>
      Some (sql_cmp (fun s (_ : unit) =>
                       like_match toks (list_ascii_of_string s)) col tt)
  end.

(** ** Python dictionaries of counters

    Keys in order of first insertion, as a [dict] keeps them. *)
Definition Dict : Type := list (string * nat).

Fixpoint dict_get (d : Dict) (k : string) (default : nat) : nat :=
  match d with
  | [] => default
  | (k', v) :: d' => if String.eqb k' k then v else dict_get d' k default
  end.

Fixpoint dict_set (d : Dict) (k : string) (v : nat) : Dict :=
  match d with
  | [] => [(k, v)]
  | (k', v') :: d' =>
      if String.eqb k' k then (k', v) :: d' else (k', v') :: dict_set d' k v
  end.

(** [d[k] = d.get(k, 0) + 1] *)
Definition dict_incr (d : Dict) (k : string) : Dict :=
  dict_set d k (dict_get d k 0 + 1)%nat.

Definition dict_total (d : Dict) : nat :=
  fold_right (fun kv acc => (snd kv + acc)%nat) 0%nat d.

(** ** The handlers of [app/api/routers/policies.py] *)

Section Handlers.
Context {F : Type} `{FloatOps F}.

(** The filters that [get_policies] and the analytics summary chain onto
    the query, each one skipped when its parameter is falsy. *)
Definition filter_jurisdiction (j : option string) (l : list (Policy F))
  : list (Policy F) :=
  match truthy_str j with
  | Some v => filter (fun p => String.eqb (jurisdiction p) v) l
  | None => l
  end.

(** [affected_industries.contains([industry])]: JSONB containment of a
    one-element array, NULL on a NULL column. *)
Definition filter_industry (i : option string) (l : list (Policy F))
  : list (Policy F) :=
  match truthy_str i with
  | Some v =>
      filter (fun p =>
                sql_is_true
                  (sql_cmp (fun tags x => existsb (String.eqb x) tags)
                     (affected_industries p) v)) l
  | None => l
  end.

(** [Policy.status == status] with a string bound to an enum column: the
    string must be a member name, any other is refused by the store. *)
Definition filter_status (s : option string) (l : list (Policy F))
  : option (list (Policy F)) :=
  match truthy_str s with
  | Some v =>
      match PolicyStatus_of_name v with
      | Some st => Some (filter (fun p => PolicyStatus_eqb (status p) st) l)
      | None => None
      end
  | None => Some l
  end.

Definition filter_category (c : option Z) (l : list (Policy F))
  : list (Policy F) :=
  match truthy_int c with
  | Some v =>
      filter (fun p => sql_is_true (sql_cmp Z.eqb (category_id p) v)) l
  | None => l
  end.

(** A [datetime] is never falsy, so only absence skips these two. *)
Definition filter_start_date (d : option datetime) (l : list (Policy F))
  : list (Policy F) :=
  match d with
  | Some v =>
      filter (fun p => sql_is_true (sql_cmp Z.geb (proposed_date p) v)) l
  | None => l
  end.

Definition filter_end_date (d : option datetime) (l : list (Policy F))
  : list (Policy F) :=
  match d with
  | Some v =>
      filter (fun p => sql_is_true (sql_cmp Z.leb (proposed_date p) v)) l
  | None => l
  end.

(** [get_policies]: the handler body, on validated [skip] and [limit]. *)
Definition get_policies_body (db : DB F) (skip limit : Z)
    (jurisdiction industry status : option string) (category_id : option Z)
    (start_date end_date : option datetime) : Response (list (Policy F)) :=
  let q := policies db in
  let q := filter_jurisdiction jurisdiction q in
  let q := filter_industry industry q in
  match filter_status status q with
  | None => HTTPError 500 "Error fetching policies"
  | Some q =>
      let q := filter_category category_id q in
      let q := filter_start_date start_date q in
      let q := filter_end_date end_date q in
      match paginate skip limit q with
      | Some page => Ok page
      | None => HTTPError 500 "Error fetching policies"
      end
  end.

(** [get_policies]: the route, parameters validated as declared before
    the body runs. *)
Definition get_policies (db : DB F) (skip limit : option Z)
    (jurisdiction industry status : option string) (category_id : option Z)
    (start_date end_date : option datetime) : Response (list (Policy F)) :=
  match Query_int 0 (Some 0) None skip with
  | HTTPError c d => HTTPError c d
  | Ok skip =>
      match Query_int 100 (Some 1) (Some 1000) limit with
      | HTTPError c d => HTTPError c d
      | Ok limit =>
          get_policies_body db skip limit jurisdiction industry status
            category_id start_date end_date
      end
  end.

(** [get_policy] *)
Definition get_policy (db : DB F) (policy_id : Z) : Response (PolicySchema F) :=
  match first_by_id db policy_id with
  | None => HTTPError 404 "Policy not found"
  | Some policy => Ok (to_schema policy)
  end.

(** [create_policy]: the new state and the answer.  A payload that the
    driver or a column refuses never reaches the sequence; a row refused
    by a key or by the foreign key has consumed a sequence value.  Every
    refusal is rolled back. *)
Definition create_policy (db : DB F) (now : datetime) (policy : PolicySchema F)
  : DB F * Response (PolicySchema F) :=
  let new_id := policies_id_seq db in
  if payload_has_nul policy then (db, HTTPError 500 "Error creating policy")
  else
    match store_schema policy with
    | None => (db, HTTPError 500 "Error creating policy")
    | Some stored =>
        let db_policy := Policy_of_schema new_id now stored in
        if row_accepted db (policies db) db_policy then
          (mkDB (policies db ++ [db_policy]) (policy_changes db)
             (policy_categories db) (impact_assessments db) (new_id + 1),
           Ok (to_schema db_policy))
        else
          (mkDB (policies db) (policy_changes db) (policy_categories db)
             (impact_assessments db) (new_id + 1),
           HTTPError 500 "Error creating policy")
    end.

Definition others_of (pid : Z) (l : list (Policy F)) : list (Policy F) :=
  filter (fun p => negb (Z.eqb (id p) pid)) l.

(** [==] on optional values and on lists of strings. *)
Definition opt_eqb {A} (eqb : A -> A -> bool) (a b : option A) : bool :=
  match a, b with
  | Some x, Some y => eqb x y
  | None, None => true
  | _, _ => false
  end.

Fixpoint tags_eqb (a b : list string) : bool :=
  match a, b with
  | [], [] => true
  | x :: a', y :: b' => String.eqb x y && tags_eqb a' b'
  | _, _ => false
  end.

Definition PolicyType_eqb (a b : PolicyType) : bool :=
  match a, b with
  | LEGISLATION, LEGISLATION | REGULATION, REGULATION
  | EXECUTIVE_ORDER, EXECUTIVE_ORDER | GUIDANCE, GUIDANCE
  | STANDARD, STANDARD | AGREEMENT, AGREEMENT => true
  | _, _ => false
  end.

(** No [setattr] of the loop changes its attribute: the session then has
    nothing to flush and emits no UPDATE. *)
Definition schema_unchanged (old : Policy F) (s : PolicySchema F) : bool :=
  String.eqb (title old) (s_title s)
  && opt_eqb String.eqb (description old) (s_description s)
  && String.eqb (policy_number old) (s_policy_number s)
  && String.eqb (jurisdiction old) (s_jurisdiction s)
  && PolicyType_eqb (policy_type old) (s_policy_type s)
  && PolicyStatus_eqb (status old) (s_status s)
  && opt_eqb Z.eqb (proposed_date old) (s_proposed_date s)
  && opt_eqb Z.eqb (enacted_date old) (s_enacted_date s)
  && opt_eqb Z.eqb (effective_date old) (s_effective_date s)
  && opt_eqb Z.eqb (expiration_date old) (s_expiration_date s)
  && opt_eqb String.eqb (regulatory_body old) (s_regulatory_body s)
  && opt_eqb String.eqb (authority old) (s_authority s)
  && opt_eqb String.eqb (content_summary old) (s_content_summary s)
  && opt_eqb String.eqb (full_text_url old) (s_full_text_url s)
  && opt_eqb String.eqb (source_url old) (s_source_url s)
  && opt_eqb feqb (estimated_impact old) (s_estimated_impact s)
  && opt_eqb feqb (impact_confidence old) (s_impact_confidence s)
  && opt_eqb tags_eqb (affected_industries old) (s_affected_industries s)
  && opt_eqb Z.eqb (category_id old) (s_category_id s).

(** [update_policy]; the body defaults to [None], whose [.dict] raises.
    A body that changes nothing leaves the row as it is; one that changes
    something is written as a new version of the row, which the table
    then lists after its other rows. *)
Definition update_policy (db : DB F) (now : datetime) (policy_id : Z)
    (policy : option (PolicySchema F)) : DB F * Response (PolicySchema F) :=
  match first_by_id db policy_id with
  | None => (db, HTTPError 404 "Policy not found")
  | Some db_policy =>
      match policy with
      | None => (db, HTTPError 500 "Error updating policy")
      | Some policy =>
          if schema_unchanged db_policy policy then
            (db, Ok (to_schema db_policy))
          else if payload_has_nul policy then
            (db, HTTPError 500 "Error updating policy")
          else
            match store_schema policy with
            | None => (db, HTTPError 500 "Error updating policy")
            | Some stored =>
                let row := Policy_overwrite db_policy now stored in
                if row_accepted db (others_of policy_id (policies db)) row
                then
                  (mkDB (others_of policy_id (policies db) ++ [row])
                     (policy_changes db) (policy_categories db)
                     (impact_assessments db) (policies_id_seq db),
                   Ok (to_schema row))
                else (db, HTTPError 500 "Error updating policy")
            end
      end
  end.

(** [delete_policy] *)
Definition delete_policy (db : DB F) (policy_id : Z) : DB F * Response string :=
  match first_by_id db policy_id with
  | None => (db, HTTPError 404 "Policy not found")
  | Some db_policy =>
      if has_dependents db (id db_policy) then
        (db, HTTPError 500 "Error deleting policy")
      else
        (mkDB (others_of (id db_policy) (policies db)) (policy_changes db)
           (policy_categories db) (impact_assessments db)
           (policies_id_seq db),
         Ok "Policy deleted successfully")
  end.

(** [get_policy_changes] *)
Definition get_policy_changes (db : DB F) (policy_id : Z)
  : Response (list (PolicyChange F)) :=
  Ok (filter (fun c => Z.eqb (c_policy_id c) policy_id) (policy_changes db)).

(** *** The analytics summary *)

Record Summary : Type := mkSummary {
  total_policies : nat;
  enacted_policies : nat;
  proposed_policies : nat;
  average_impact : F;
  jurisdiction_breakdown : Dict;
  industry_breakdown : Dict;
  analysis_period : option datetime * option datetime
}.

(** [len([p for p in policies if p.status == name])]: the row holds an
    enum member, the right-hand side is a string. *)
Definition count_status (name : string) (l : list (Policy F)) : nat :=
  List.length (filter (fun p => py_eq (PyEnum (status p)) (PyStr name)) l).

(** The comprehension over [policies] that keeps [p.estimated_impact]
    where it [is not None]. *)
Fixpoint impacts_of (l : list (Policy F)) : list F :=
  match l with
  | [] => []
  | p :: l' =>
      match estimated_impact p with
      | Some x => x :: impacts_of l'
      | None => impacts_of l'
      end
  end.

(** [sum(xs)]: a left fold of [+] from the int [0]. *)
Definition py_sum (xs : list F) : F := fold_left fadd xs (fof_Z 0).

(** [sum(impacts) / len(impacts) if impacts else 0] *)
Definition average_of (impacts : list F) : F :=
  match impacts with
  | [] => fof_Z 0
  | _ :: _ => fdiv (py_sum impacts) (fof_Z (Z.of_nat (List.length impacts)))
  end.

Definition count_jurisdictions (l : list (Policy F)) : Dict :=
  fold_left (fun d p => dict_incr d (jurisdiction p)) l [].

(** The inner loop, entered only when the list is neither [None] nor
    empty. *)
Definition count_tags (d : Dict) (p : Policy F) : Dict :=
  match affected_industries p with
  | Some (t :: ts) => fold_left dict_incr (t :: ts) d
  | _ => d
  end.

Definition count_industries (l : list (Policy F)) : Dict :=
  fold_left count_tags l [].

(** The reductions of the handler over the fetched rows. *)
Definition summarize (l : list (Policy F))
    (start_date end_date : option datetime) : Summary :=
  mkSummary (List.length l) (count_status "ENACTED" l)
    (count_status "PROPOSED" l)
    (average_of (impacts_of l)) (count_jurisdictions l) (count_industries l)
    (start_date, end_date).

(** The filtered fetch of [get_policy_analytics_summary]. *)
Definition summary_rows (db : DB F) (jurisdiction : option string)
    (start_date end_date : option datetime) : list (Policy F) :=
  filter_end_date end_date
    (filter_start_date start_date
       (filter_jurisdiction jurisdiction (policies db))).

(** [get_policy_analytics_summary] *)
Definition get_policy_analytics_summary (db : DB F)
    (jurisdiction : option string) (start_date end_date : option datetime)
  : Response Summary :=
  Ok (summarize (summary_rows db jurisdiction start_date end_date)
        start_date end_date).

(** *** Search and the ordered listings *)

(** The WHERE clause of [search_policies] on one row; [None] when the
    pattern is refused. *)
Definition search_condition (q : string) (p : Policy F)
  : option (option bool) :=
  let pattern := String.append "%" (String.append q "%") in
  match ilike (Some (title p)) pattern, ilike (description p) pattern,
        ilike (content_summary p) pattern with
  | Some a, Some b, Some c => Some (sql_or (sql_or a b) c)
  | _, _, _ => None
  end.

Fixpoint search_rows (q : string) (l : list (Policy F))
  : option (list (Policy F)) :=
  match l with
  | [] => Some []
  | p :: l' =>
      match search_condition q p, search_rows q l' with
      | Some c, Some r => Some (if sql_is_true c then p :: r else r)
      | _, _ => None
      end
  end.

(** [search_policies] *)
Definition search_policies (db : DB F) (q : string) (skip limit : option Z)
  : Response (list (Policy F)) :=
  match Query_int 0 (Some 0) None skip with
  | HTTPError c d => HTTPError c d
  | Ok skip =>
      match Query_int 100 (Some 1) (Some 1000) limit with
      | HTTPError c d => HTTPError c d
      | Ok limit =>
          match search_rows q (policies db) with
          | None => HTTPError 500 "Error searching policies"
          | Some rows =>
              match paginate skip limit rows with
              | Some page => Ok page
              | None => HTTPError 500 "Error searching policies"
              end
          end
      end
  end.

(** [get_recent_policies]; [now] is what [datetime.utcnow()] returns. *)
Definition get_recent_policies (db : DB F) (now : datetime)
    (days limit : option Z) : Response (list (Policy F)) :=
  match Query_int 30 (Some 1) (Some 365) days with
  | HTTPError c d => HTTPError c d
  | Ok days =>
      match Query_int 50 (Some 1) (Some 500) limit with
      | HTTPError c d => HTTPError c d
      | Ok limit =>
          let cutoff_date := now - timedelta_days days in
          Ok (firstn (Z.to_nat limit)
                (order_by
                   (fun a b =>
                      desc_nulls_first Z.leb (proposed_date a)
                        (proposed_date b))
                   (filter
                      (fun p =>
                         sql_is_true
                           (sql_cmp Z.geb (proposed_date p) cutoff_date))
                      (policies db))))
      end
  end.

(** The WHERE clause of [get_high_risk_policies] on one row. *)
Definition high_risk_condition (p : Policy F) : option bool :=
  sql_or (sql_cmp fltb (estimated_impact p) (fof_Z (-100)))
         (sql_cmp fltb (impact_confidence p) (flit (6 # 10))).

(** [get_high_risk_policies] *)
Definition get_high_risk_policies (db : DB F) (limit : option Z)
  : Response (list (Policy F)) :=
  match Query_int 50 (Some 1) (Some 500) limit with
  | HTTPError c d => HTTPError c d
  | Ok limit =>
      Ok (firstn (Z.to_nat limit)
            (order_by
               (fun a b =>
                  asc_nulls_last fleb (estimated_impact a)
                    (estimated_impact b))
               (filter (fun p => sql_is_true (high_risk_condition p))
                  (policies db))))
  end.

End Handlers.

(** ** The contract, in the words of the specification

    These definitions follow the specification, not the code; the theorems
    below compare the handlers with them. *)

Section Contract.
Context {F : Type} `{FloatOps F}.

(** "count where status == ENACTED" *)
Definition spec_count_status (st : PolicyStatus) (l : list (Policy F)) : nat :=
  List.length (filter (fun p => PolicyStatus_eqb (status p) st) l).





(** The tags a policy lists; none when the column is NULL. *)
Definition tags_of (p : Policy F) : list string :=
  match affected_industries p with Some ts => ts | None => [] end.

(** How often tag [k] is listed by the policies of [l], and how many tags
    they list in all. *)
Definition tag_occurrences (k : string) (l : list (Policy F)) : nat :=
  fold_right (fun p acc => (count_occ string_dec (tags_of p) k + acc)%nat)
    0%nat l.

Definition tag_total (l : list (Policy F)) : nat :=
  fold_right (fun p acc => (List.length (tags_of p) + acc)%nat) 0%nat l.

(** "a policy with N tags increments N distinct buckets by one each" *)
Definition increments_distinct_buckets (before after : Dict) (n : nat)
  : Prop :=
  exists ks : list string,
    NoDup ks /\ List.length ks = n
    /\ forall k, In k ks -> dict_get after k 0 = S (dict_get before k 0).

(** "(estimated_impact < -100) OR (impact_confidence < 0.6)" *)
Definition is_high_risk (p : Policy F) : Prop :=
  (exists x, estimated_impact p = Some x /\ fltb x (fof_Z (-100)) = true)
  \/ (exists c, impact_confidence p = Some c /\ fltb c (flit (6 # 10)) = true).

(** "ascending by estimated impact": a row without an impact sorts after
    every row that has one. *)
Definition impact_ascending (a b : Policy F) : Prop :=
  asc_nulls_last fleb (estimated_impact a) (estimated_impact b) = true.

(** "proposed_date >= (now - days)" *)
Definition is_recent (cutoff : datetime) (p : Policy F) : Prop :=
  exists d, proposed_date p = Some d /\ cutoff <= d.

(** "descending by proposed_date" *)
Definition date_descending (a b : Policy F) : Prop :=
  exists x y, proposed_date a = Some x /\ proposed_date b = Some y /\ y <= x.

(** A payload with its identifier replaced by the server's. *)
Definition with_id (n : Z) (s : PolicySchema F) : PolicySchema F :=
  mkPolicySchema (Some n) (s_title s) (s_description s) (s_policy_number s)
    (s_jurisdiction s) (s_policy_type s) (s_status s) (s_proposed_date s)
    (s_enacted_date s) (s_effective_date s) (s_expiration_date s)
    (s_regulatory_body s) (s_authority s) (s_content_summary s)
    (s_full_text_url s) (s_source_url s) (s_estimated_impact s)
    (s_impact_confidence s) (s_affected_industries s) (s_category_id s).







(** Every change row points at a stored policy (the foreign key). *)
Definition changes_fk_ok (db : DB F) : bool :=
  forallb
    (fun c => existsb (fun p => Z.eqb (id p) (c_policy_id c)) (policies db))
    (policy_changes db).

End Contract.

(** "substring, case-insensitive" *)
Fixpoint ci_prefix (q s : list ascii) : bool :=
  match q, s with
  | [], _ => true
  | _ :: _, [] => false
  | c :: q', d :: s' => ci_eqb c d && ci_prefix q' s'
  end.

Fixpoint ci_substring (q s : list ascii) : bool :=
  ci_prefix q s || match s with [] => false | _ :: s' => ci_substring q s' end.

Definition ci_occurs (q : string) (field : option string) : bool :=
  match field with
  | Some s => ci_substring (list_ascii_of_string q) (list_ascii_of_string s)
  | None => false
  end.

(** "match across title, description, and summary fields, OR-combined" *)
Definition spec_search_match {F} (q : string) (p : Policy F) : bool :=
  ci_occurs q (Some (title p)) || ci_occurs q (description p)
  || ci_occurs q (content_summary p).

(** Text made of ASCII characters other than NUL: the text on which the
    case folding of ILIKE is the folding of the letters A to Z, whatever
    the locale of the database. *)
Definition ascii_text (s : string) : bool :=
  forallb
    (fun c => Nat.ltb 0 (nat_of_ascii c) && Nat.ltb (nat_of_ascii c) 128)
    (list_ascii_of_string s).

Definition ascii_text_opt (s : option string) : bool :=
  match s with Some x => ascii_text x | None => true end.

Definition ascii_fields {F} (p : Policy F) : bool :=
  ascii_text (title p) && ascii_text_opt (description p)
  && ascii_text_opt (content_summary p).

(** The characters ILIKE reads as more than themselves. *)
Definition like_special (c : ascii) : bool :=
  Ascii.eqb c "%"%char || Ascii.eqb c "_"%char || Ascii.eqb c "\"%char.

Definition plain_query (q : string) : bool :=
  forallb (fun c => negb (like_special c)) (list_ascii_of_string q).

(** ** Rationals as a carrier, and sample data *)

#[export] Instance Q_FloatOps : FloatOps Q := {
  fof_Z := inject_Z;
  flit := fun q => q;
  fadd := Qplus;
  fdiv := Qdiv;
  fleb := Qle_bool;
  feqb := Qeq_bool
}.

Definition sample_schema : PolicySchema Q :=
  mkPolicySchema (Some 999) "Test" None "US-TST-0001" "US" REGULATION DRAFT
    None None None None None None None None None None None None None.

Definition sample_update : PolicySchema Q :=
  mkPolicySchema None "Test" None "US-TST-0001" "US" REGULATION ENACTED
    None None None None None None None None None None None None None.

Definition sample_row (n : Z) (ttl : string) (desc : option string)
    (st : PolicyStatus) (date : option datetime) (impact conf : option Q)
    (tags : option (list string)) : Policy Q :=
  mkPolicy n 0 0 ttl desc ("P-" ++ ttl) "US" REGULATION st date None None None
    None None None None None impact conf tags None.

Definition db_of (rows : list (Policy Q)) : DB Q :=
  mkDB rows [] [] [] (Z.of_nat (List.length rows) + 1).


Definition enacted_row : Policy Q :=
  sample_row 1 "Carbon levy" None ENACTED None None None None.

Definition twice_tagged_row : Policy Q :=
  sample_row 1 "Chips act" None DRAFT None None None
    (Some ["technology"; "technology"]).

Definition short_title_row : Policy Q :=
  sample_row 1 "a" None DRAFT None None None None.

Definition risk_rows : list (Policy Q) :=
  [ sample_row 1 "r1" None DRAFT (Some 500) (Some (-150 # 1)) (Some (9 # 10))
      None;
    sample_row 2 "r2" None DRAFT (Some 900) None (Some (5 # 10)) None;
    sample_row 3 "r3" None DRAFT (Some 100) (Some (-300 # 1)) None None;
    sample_row 4 "r4" None DRAFT None (Some (20 # 1)) (Some (8 # 10)) None ].

(** ** The rest of the router, and what its properties are stated with *)

Section MoreHandlers.
Context {F : Type} `{FloatOps F}.

(** [get_policy_categories] *)
Definition get_policy_categories (db : DB F)
  : Response (list PolicyCategory) :=
  Ok (policy_categories db).

(** The rows [get_policies] has selected when it reaches
    [offset(skip).limit(limit)]; [None] when the status string is refused. *)
Definition listing_rows (db : DB F)
    (jurisdiction industry status : option string) (category_id : option Z)
    (start_date end_date : option datetime) : option (list (Policy F)) :=
  option_map
    (fun q =>
       filter_end_date end_date
         (filter_start_date start_date (filter_category category_id q)))
    (filter_status status
       (filter_industry industry
          (filter_jurisdiction jurisdiction (policies db)))).

(** A row meets every filter that was supplied with a truthy value. *)
Definition passes_filters
    (jurisdiction0 industry0 status0 : option string)
    (category_id0 : option Z) (start_date end_date : option datetime)
    (p : Policy F) : Prop :=
  (forall v, truthy_str jurisdiction0 = Some v -> jurisdiction p = v)
  /\ (forall v, truthy_str industry0 = Some v ->
                exists tags, affected_industries p = Some tags /\ In v tags)
  /\ (forall v, truthy_str status0 = Some v ->
                PolicyStatus_name (status p) = v)
  /\ (forall v, truthy_int category_id0 = Some v -> category_id p = Some v)
  /\ (forall v, start_date = Some v ->
                exists d, proposed_date p = Some d /\ v <= d)
  /\ (forall v, end_date = Some v ->
                exists d, proposed_date p = Some d /\ d <= v).

(** The keys and the unique column of [policies] hold distinct values and
    the sequence is ahead of every key. *)
Definition store_ok (db : DB F) : Prop :=
  NoDup (map (@id F) (policies db))
  /\ NoDup (map (@policy_number F) (policies db))
  /\ Forall (fun p => id p < policies_id_seq db) (policies db).

(** Two stores with the same rows in every table. *)
Definition same_tables (a b : DB F) : Prop :=
  policies a = policies b
  /\ policy_changes a = policy_changes b
  /\ policy_categories a = policy_categories b
  /\ impact_assessments a = impact_assessments b.

End MoreHandlers.

(** The keys of a tally in the order a [dict] lists them: each key where
    it is first met. *)
Definition note_key (seen : list string) (k : string) : list string :=
  if existsb (String.eqb k) seen then seen else (seen ++ [k])%list.

Definition first_seen (ks : list string) : list string :=
  fold_left note_key ks [].

Fixpoint lower_string (s : string) : string :=
  match s with
  | EmptyString => EmptyString
  | String c s' => String (lower_ascii c) (lower_string s')
  end.

Definition lower_tok (t : like_tok) : like_tok :=
  match t with
  | Lit c => Lit (lower_ascii c)
  | AnyRun => AnyRun
  | AnyOne => AnyOne
  end.

(** ** The handlers of [app/api/routers/companies.py]

    The handlers read three columns of [Company], one of
    [CompanyProfile] and two of [FinancialMetrics]; the row types are left
    open and the columns are their projections. *)

Section Companies.
Variables Company CompanyProfile FinancialMetrics : Type.
Variable co_id : Company -> Z.
Variable co_industry : Company -> string.
Variable co_headquarters_country : Company -> string.
Variable cp_company_id : CompanyProfile -> Z.
Variable fm_company_id : FinancialMetrics -> Z.
Variable fm_date : FinancialMetrics -> datetime.

Record CompanyDB : Type := mkCompanyDB {
  companies : list Company;
  company_profiles : list CompanyProfile;
  financial_metrics : list FinancialMetrics
}.


(** [get_company] *)
Definition get_company (db : CompanyDB) (company_id : Z) : Response Company :=
  match find (fun c => Z.eqb (co_id c) company_id) (companies db) with
  | None => HTTPError 404 "Company not found"
  | Some company => Ok company
  end.

(** [get_company_profile] *)
Definition get_company_profile (db : CompanyDB) (company_id : Z)
  : Response CompanyProfile :=
  match find (fun r => Z.eqb (cp_company_id r) company_id)
          (company_profiles db) with
  | None => HTTPError 404 "Company profile not found"
  | Some profile => Ok profile
  end.

(** [get_company_financial_metrics]; [date] is NOT NULL, so the order has
    no NULL keys to place. *)
Definition get_company_financial_metrics (db : CompanyDB) (company_id : Z)
    (skip limit : option Z) : Response (list FinancialMetrics) :=
  match Query_int 0 (Some 0) None skip with
  | HTTPError c d => HTTPError c d
  | Ok skip =>
      match Query_int 100 (Some 1) (Some 1000) limit with
      | HTTPError c d => HTTPError c d
      | Ok limit =>
          match paginate skip limit
                  (order_by (fun a b => Z.leb (fm_date b) (fm_date a))
                     (filter (fun m => Z.eqb (fm_company_id m) company_id)
                        (financial_metrics db))) with
          | Some page => Ok page
          | None => HTTPError 500 "Error fetching financial metrics"
          end
      end
  end.

End Companies.

(** Sample rows for the company tables: a company is (key, industry,
    country), a profile is its company key, a metrics row is (company
    key, date). *)
Definition sample_companies : CompanyDB (Z * string * string) Z (Z * Z) :=
  mkCompanyDB
    [(1, "energy", "US"); (2, "technology", "US"); (3, "energy", "DE")]
    [1]
    [(1, 300); (2, 100); (1, 500); (1, 400)].

Definition dated_rows : list (Policy Q) :=
  [ sample_row 1 "d1" None DRAFT (Some 500) None None None;
    sample_row 2 "d2" None DRAFT (Some 900) None None None;
    sample_row 3 "d3" None DRAFT (Some 700) None None None ].

Definition described_row : Policy Q :=
  sample_row 2 "Grid code" (Some "Covers carbon pricing") ENACTED None None
    None None.


Definition risk_rows_enacted : list (Policy Q) :=
  [enacted_row; described_row;
   sample_row 3 "r3" None DRAFT (Some 100) (Some (-300 # 1)) None None].

Definition clashing_schema : PolicySchema Q :=
  mkPolicySchema None "Other" None "P-Carbon levy" "US" REGULATION DRAFT
    None None None None None None None None None None None None None.

(** * Theorems *)

Section Counting.
Context {F : Type} `{FloatOps F}.

(** A member never equals a string, whatever the string. *)
Lemma count_status_zero (name : string) (l : list (Policy F)) :
  count_status name l = 0%nat.
Proof.
  unfold count_status.
  induction l as [|p l IH]; simpl; [reflexivity | exact IH].
Qed.






End Counting.

(** C1: on a store whose only policy is ENACTED the summary reports one
    policy in total and zero enacted ones, where the count of policies
    whose status equals ENACTED is one. *)
Theorem summary_misses_enacted_row :
  exists sm,
    get_policy_analytics_summary (db_of [enacted_row]) None None None = Ok sm
    /\ total_policies sm = 1%nat
    /\ enacted_policies sm = 0%nat
    /\ spec_count_status ENACTED (policies (db_of [enacted_row])) = 1%nat.
Proof.
  eexists. split; [reflexivity|]. repeat split.
Qed.


(** ** Validation, falsy filters, change listing *)

Section Listing.
Context {F : Type} `{FloatOps F}.

Lemma Query_int_rejects (default : Z) (ge le : option Z) (v : Z) :
  check_ge ge v && check_le le v = false ->
  Query_int default ge le (Some v) = @HTTPError Z 422 "validation error".
Proof.
  intros Hout. unfold Query_int. rewrite Hout. reflexivity.
Qed.

Lemma Query_int_cases (default : Z) (ge le : option Z) (raw : option Z) :
  (exists v, Query_int default ge le raw = Ok v)
  \/ Query_int default ge le raw = @HTTPError Z 422 "validation error".
Proof.
  destruct raw as [v|]; simpl.
  - destruct (check_ge ge v && check_le le v); eauto.
  - eauto.
Qed.

(** C7: a listing request that supplies a [skip] below 0, or a [limit]
    below 1 or above 1000, whatever else it supplies or omits, is answered
    with the validation error 422, so no page is computed from a clamped
    value; a request whose supplied [skip] and [limit] are within these
    bounds is not answered with that error. *)
Theorem get_policies_rejects_out_of_bounds (db : DB F) (skip limit : option Z)
    (jurisdiction industry status : option string) (category_id : option Z)
    (start_date end_date : option datetime) :
  ((exists s, skip = Some s /\ s < 0)
   \/ (exists n, limit = Some n /\ (n < 1 \/ n > 1000)) ->
   get_policies db skip limit jurisdiction industry status category_id
     start_date end_date
   = HTTPError 422 "validation error")
  /\ ((forall s, skip = Some s -> 0 <= s) ->
      (forall n, limit = Some n -> 1 <= n <= 1000) ->
      forall code detail,
        get_policies db skip limit jurisdiction industry status category_id
          start_date end_date
        = HTTPError code detail ->
        code = 500).
Proof.
  split.
  - intros [[s [-> Hs]]|[n [-> Hn]]].
    + unfold get_policies, Query_int. simpl.
      destruct (Z.leb 0 s) eqn:E; [apply Z.leb_le in E; lia | reflexivity].
    + assert (Hlim : check_ge (Some 1) n && check_le (Some 1000) n = false).
      { simpl. destruct (Z.leb 1 n) eqn:H1; [|reflexivity].
        destruct (Z.leb n 1000) eqn:H2; [|reflexivity].
        apply Z.leb_le in H1. apply Z.leb_le in H2. lia. }
      unfold get_policies.
      rewrite (@Query_int_rejects 100 (Some 1) (Some 1000) n Hlim).
      destruct (Query_int_cases 0 (Some 0) None skip) as [[s Hs]|Hs];
        rewrite Hs; reflexivity.
  - intros Hskip Hlimit code detail. unfold get_policies.
    assert (Hs : exists s, Query_int 0 (Some 0) None skip = Ok s).
    { destruct skip as [s|]; [|eexists; reflexivity].
      exists s. unfold Query_int. simpl.
      specialize (Hskip s eq_refl). apply Z.leb_le in Hskip.
      rewrite Hskip. reflexivity. }
    assert (Hn : exists n,
               Query_int 100 (Some 1) (Some 1000) limit = Ok n).
    { destruct limit as [n|]; [|eexists; reflexivity].
      exists n. unfold Query_int. simpl.
      specialize (Hlimit n eq_refl).
      destruct (Z.leb_spec 1 n); [|lia].
      destruct (Z.leb_spec n 1000); [|lia]. reflexivity. }
    destruct Hs as [s ->]. destruct Hn as [n ->].
    unfold get_policies_body.
    destruct (filter_status _ _);
      [|intros Herr; injection Herr as <- _; reflexivity].
    destruct (paginate _ _ _); [discriminate|].
    intros Herr. injection Herr as <- _. reflexivity.
Qed.

(** C9: a falsy filter value (the empty string for [jurisdiction],
    [industry] or [status], the integer 0 for [category_id]) gives the
    listing the answer it gives when the parameter is absent, and likewise
    for [jurisdiction] in the analytics summary. *)
Theorem falsy_filter_is_absent_filter (db : DB F) (skip limit : option Z)
    (jurisdiction industry status : option string) (category_id : option Z)
    (start_date end_date : option datetime) :
  get_policies db skip limit (Some "") industry status category_id
    start_date end_date
  = get_policies db skip limit None industry status category_id
      start_date end_date
  /\ get_policies db skip limit jurisdiction (Some "") status category_id
       start_date end_date
     = get_policies db skip limit jurisdiction None status category_id
         start_date end_date
  /\ get_policies db skip limit jurisdiction industry (Some "") category_id
       start_date end_date
     = get_policies db skip limit jurisdiction industry None category_id
         start_date end_date
  /\ get_policies db skip limit jurisdiction industry status (Some 0)
       start_date end_date
     = get_policies db skip limit jurisdiction industry status None
         start_date end_date
  /\ get_policy_analytics_summary db (Some "") start_date end_date
     = get_policy_analytics_summary db None start_date end_date.
Proof.
  repeat split; reflexivity.
Qed.

Lemma find_none_existsb {A} (f : A -> bool) (l : list A) :
  find f l = None -> existsb f l = false.
Proof.
  induction l as [|x l IH]; simpl; [reflexivity|].
  destruct (f x); [discriminate | exact IH].
Qed.

Lemma no_policy_no_changes (db : DB F) (policy_id : Z) :
  changes_fk_ok db = true ->
  first_by_id db policy_id = None ->
  filter (fun c => Z.eqb (c_policy_id c) policy_id) (policy_changes db) = [].
Proof.
  unfold changes_fk_ok, first_by_id. intros Hfk Hnone.
  apply find_none_existsb in Hnone.
  induction (policy_changes db) as [|c cs IH]; simpl; [reflexivity|].
  simpl in Hfk. apply andb_prop in Hfk. destruct Hfk as [Hc Hcs].
  destruct (Z.eqb (c_policy_id c) policy_id) eqn:Heq.
  - apply Z.eqb_eq in Heq. subst policy_id. congruence.
  - apply IH, Hcs.
Qed.

(** C10: the change listing answers with the change rows whose
    [policy_id] matches and never with an error; for an id that no policy
    has, where the single-policy lookup answers 404, it answers with the
    empty list (change rows pointing at stored policies, as their foreign
    key requires). *)
Theorem get_policy_changes_never_not_found (db : DB F) (policy_id : Z) :
  get_policy_changes db policy_id
  = Ok (filter (fun c => Z.eqb (c_policy_id c) policy_id) (policy_changes db))
  /\ (changes_fk_ok db = true ->
      first_by_id db policy_id = None ->
      get_policy db policy_id = HTTPError 404 "Policy not found"
      /\ get_policy_changes db policy_id = Ok []).
Proof.
  split; [reflexivity|].
  intros Hfk Hnone. split.
  - unfold get_policy. rewrite Hnone. reflexivity.
  - unfold get_policy_changes.
    rewrite (@no_policy_no_changes db policy_id Hfk Hnone).
    reflexivity.
Qed.

End Listing.

Lemma get_policies_rejects_out_of_bounds_witness :
  get_policies (db_of [enacted_row]) None (Some 5000) None None None None
    None None
  = HTTPError 422 "validation error"
  /\ get_policies (db_of [enacted_row]) (Some (-1)) None None None None None
       None None
     = HTTPError 422 "validation error"
  /\ (forall code detail,
         get_policies (db_of [enacted_row]) (Some 0) (Some 1000) None None
           (Some "enacted"%string) None None None
         = HTTPError code detail ->
         code = 500).
Proof.
  split; [|split].
  - apply (proj1 (@get_policies_rejects_out_of_bounds Q (db_of [enacted_row])
                    None (Some 5000) None None None None None None)).
    right. exists 5000. split; [reflexivity | right; lia].
  - apply (proj1 (@get_policies_rejects_out_of_bounds Q (db_of [enacted_row])
                    (Some (-1)) None None None None None None None)).
    left. exists (-1). split; [reflexivity | lia].
  - apply (proj2 (@get_policies_rejects_out_of_bounds Q
                    (db_of [enacted_row]) (Some 0) (Some 1000) None None
                    (Some "enacted"%string) None None None)).
    + intros s Hs. injection Hs as <-. lia.
    + intros n Hn. injection Hn as <-. lia.
Defined.

Lemma get_policy_changes_never_not_found_witness :
  changes_fk_ok (db_of [enacted_row]) = true
  /\ first_by_id (db_of [enacted_row]) 7 = None
  /\ get_policy (db_of [enacted_row]) 7 = HTTPError 404 "Policy not found"
  /\ get_policy_changes (db_of [enacted_row]) 7 = Ok [].
Proof.
  split; [reflexivity|]. split; [reflexivity|].
  apply (@get_policy_changes_never_not_found Q (db_of [enacted_row]) 7);
    reflexivity.
Defined.

(** ** The industry breakdown *)

Lemma dict_get_set (d : Dict) (k k' : string) (v : nat) :
  dict_get (dict_set d k v) k' 0
  = if String.eqb k k' then v else dict_get d k' 0.
Proof.
  induction d as [|[k0 v0] d IH]; simpl.
  - destruct (String.eqb k k'); reflexivity.
  - destruct (String.eqb k0 k) eqn:E0; simpl.
    + apply String.eqb_eq in E0. subst k0.
      destruct (String.eqb k k'); reflexivity.
    + destruct (String.eqb k0 k') eqn:E1; [|exact IH].
      apply String.eqb_eq in E1. subst k0.
      rewrite String.eqb_sym, E0. reflexivity.
Qed.

Lemma dict_get_incr (d : Dict) (k k' : string) :
  dict_get (dict_incr d k) k' 0
  = (dict_get d k' 0 + if String.eqb k k' then 1 else 0)%nat.
Proof.
  unfold dict_incr. rewrite dict_get_set.
  destruct (String.eqb k k') eqn:E.
  - apply String.eqb_eq in E. subst k'. reflexivity.
  - lia.
Qed.

Lemma dict_total_set (d : Dict) (k : string) (v : nat) :
  (dict_total (dict_set d k v) + dict_get d k 0 = dict_total d + v)%nat.
Proof.
  induction d as [|[k0 v0] d IH]; simpl.
  - lia.
  - destruct (String.eqb k0 k); simpl; lia.
Qed.

Lemma dict_total_incr (d : Dict) (k : string) :
  dict_total (dict_incr d k) = S (dict_total d).
Proof.
  unfold dict_incr.
  pose proof (dict_total_set d k (dict_get d k 0 + 1)). lia.
Qed.

Lemma count_occ_cons_eqb (k t : string) (ts : list string) :
  count_occ string_dec (t :: ts) k
  = ((if String.eqb t k then 1 else 0) + count_occ string_dec ts k)%nat.
Proof.
  simpl. destruct (string_dec t k) as [E|E].
  - subst t. rewrite String.eqb_refl. reflexivity.
  - apply String.eqb_neq in E. rewrite E. reflexivity.
Qed.

Lemma tags_loop_get (ts : list string) (d : Dict) (k : string) :
  dict_get (fold_left dict_incr ts d) k 0
  = (dict_get d k 0 + count_occ string_dec ts k)%nat.
Proof.
  revert d. induction ts as [|t ts IH]; intros d.
  - simpl. lia.
  - rewrite count_occ_cons_eqb. simpl fold_left.
    rewrite IH, dict_get_incr. lia.
Qed.

Lemma tags_loop_total (ts : list string) (d : Dict) :
  dict_total (fold_left dict_incr ts d)
  = (dict_total d + List.length ts)%nat.
Proof.
  revert d. induction ts as [|t ts IH]; intros d; simpl.
  - lia.
  - rewrite IH, dict_total_incr. lia.
Qed.

Section Breakdown.
Context {F : Type} `{FloatOps F}.

Lemma count_tags_as_loop (d : Dict) (p : Policy F) :
  count_tags d p = fold_left dict_incr (tags_of p) d.
Proof.
  unfold count_tags, tags_of.
  destruct (affected_industries p) as [[|t ts]|]; reflexivity.
Qed.

Lemma industries_from_get (l : list (Policy F)) (d : Dict) (k : string) :
  dict_get (fold_left count_tags l d) k 0
  = (dict_get d k 0 + tag_occurrences k l)%nat.
Proof.
  revert d. induction l as [|p l IH]; intros d; simpl.
  - lia.
  - rewrite IH, count_tags_as_loop, tags_loop_get. lia.
Qed.

Lemma industries_from_total (l : list (Policy F)) (d : Dict) :
  dict_total (fold_left count_tags l d) = (dict_total d + tag_total l)%nat.
Proof.
  revert d. induction l as [|p l IH]; intros d; simpl.
  - lia.
  - rewrite IH, count_tags_as_loop, tags_loop_total. lia.
Qed.

Lemma tag_occurrences_app (k : string) (l1 l2 : list (Policy F)) :
  tag_occurrences k (l1 ++ l2)
  = (tag_occurrences k l1 + tag_occurrences k l2)%nat.
Proof.
  induction l1 as [|p l1 IH]; simpl; [reflexivity|]. rewrite IH. lia.
Qed.

Lemma tag_total_app (l1 l2 : list (Policy F)) :
  tag_total (l1 ++ l2) = (tag_total l1 + tag_total l2)%nat.
Proof.
  induction l1 as [|p l1 IH]; simpl; [reflexivity|]. rewrite IH. lia.
Qed.

(** C3, amended: in [industry_breakdown] the bucket of a tag holds the
    number of times the filtered policies list it.  All else equal, a
    policy added to the set raises the bucket of each tag by the number of
    times the policy lists that tag, hence by one each for N pairwise
    distinct tags, and raises the total of the breakdown by the length N of
    its list. *)
Theorem industry_breakdown_counts_listed_tags (l1 l2 : list (Policy F))
    (p : Policy F) (sd ed : option datetime) :
  let before := industry_breakdown (summarize (l1 ++ l2) sd ed) in
  let after := industry_breakdown (summarize (l1 ++ p :: l2) sd ed) in
  (forall k, dict_get after k 0
             = (dict_get before k 0 + count_occ string_dec (tags_of p) k)%nat)
  /\ dict_total after = (dict_total before + List.length (tags_of p))%nat
  /\ (NoDup (tags_of p) ->
      forall k, In k (tags_of p) ->
                dict_get after k 0 = S (dict_get before k 0)).
Proof.
  simpl. unfold count_industries.
  assert (Hget : forall k,
             dict_get (fold_left count_tags (l1 ++ p :: l2) []) k 0
             = (dict_get (fold_left count_tags (l1 ++ l2) []) k 0
                + count_occ string_dec (tags_of p) k)%nat).
  { intros k. rewrite !industries_from_get, !tag_occurrences_app.
    simpl. lia. }
  split; [exact Hget|]. split.
  - rewrite !industries_from_total, !tag_total_app. simpl. lia.
  - intros Hnd k Hin. rewrite Hget.
    rewrite (proj1 (NoDup_count_occ' string_dec (tags_of p)) Hnd k Hin). lia.
Qed.

End Breakdown.

(** C3, as stated, fails: a policy that lists the same tag twice moves a
    single bucket, by two. *)
Lemma twice_tagged_row_moves_one_bucket :
  industry_breakdown (summarize [twice_tagged_row] None None)
  = [("technology", 2%nat)]
  /\ ~ increments_distinct_buckets
         (industry_breakdown (summarize (@nil (Policy Q)) None None))
         (industry_breakdown (summarize [twice_tagged_row] None None))
         (List.length (tags_of twice_tagged_row)).
Proof.
  split; [reflexivity|].
  intros [ks [_ [Hlen Hk]]].
  destruct ks as [|a ks]; [discriminate Hlen|].
  specialize (Hk a (or_introl eq_refl)).
  change (dict_get [("technology", 2%nat)] a 0 = S (dict_get [] a 0)) in Hk.
  cbn [dict_get] in Hk.
  destruct (String.eqb "technology" a); discriminate Hk.
Qed.

Lemma industry_breakdown_counts_listed_tags_witness :
  NoDup (tags_of (sample_row 2 "Grid" None DRAFT None None None
                    (Some ["energy"; "technology"])))
  /\ dict_get
       (industry_breakdown
          (summarize
             [twice_tagged_row;
              sample_row 2 "Grid" None DRAFT None None None
                (Some ["energy"; "technology"])] None None))
       "technology" 0
     = 3%nat.
Proof.
  assert (Hnd : NoDup ["energy"; "technology"]).
  { constructor; [simpl; intros [E|[]]; discriminate|].
    constructor; [simpl; tauto | constructor]. }
  split; [exact Hnd|].
  exact (proj2 (proj2
    (@industry_breakdown_counts_listed_tags Q _ [twice_tagged_row] []
       (sample_row 2 "Grid" None DRAFT None None None
          (Some ["energy"; "technology"])) None None))
    Hnd "technology" (or_intror (or_introl eq_refl))).
Defined.

(** ** ORDER BY and LIMIT *)

Section Ordering.
Variable A : Type.
Variable leb : A -> A -> bool.
Hypothesis leb_total : forall x y, leb x y = true \/ leb y x = true.
Hypothesis leb_trans :
  forall x y z, leb x y = true -> leb y z = true -> leb x z = true.

Lemma order_insert_In (x y : A) (l : list A) :
  In y (order_insert leb x l) <-> y = x \/ In y l.
Proof.
  induction l as [|z l IH]; simpl.
  - intuition congruence.
  - destruct (leb x z); simpl; [intuition congruence|].
    rewrite IH. intuition congruence.
Qed.

Lemma order_by_In (y : A) (l : list A) :
  In y (order_by leb l) <-> In y l.
Proof.
  induction l as [|x l IH]; simpl; [tauto|].
  rewrite order_insert_In, IH. intuition congruence.
Qed.

Lemma order_insert_sorted (x : A) (l : list A) :
  StronglySorted (ordered_by leb) l ->
  StronglySorted (ordered_by leb) (order_insert leb x l).
Proof.
  induction 1 as [|z l Hl IH Hz]; simpl.
  - constructor; constructor.
  - destruct (leb x z) eqn:Hxz.
    + constructor; [constructor; assumption|].
      constructor; [exact Hxz|].
      rewrite Forall_forall in *. intros w Hw.
      apply (leb_trans Hxz). apply Hz, Hw.
    + constructor; [exact IH|].
      rewrite Forall_forall in *. intros w Hw.
      apply order_insert_In in Hw. destruct Hw as [->|Hw].
      * destruct (leb_total x z) as [E|E]; [congruence | exact E].
      * apply Hz, Hw.
Qed.

Lemma order_by_sorted (l : list A) :
  StronglySorted (ordered_by leb) (order_by leb l).
Proof.
  induction l as [|x l IH]; simpl;
    [constructor | apply order_insert_sorted, IH].
Qed.

End Ordering.

Lemma firstn_In {A} (n : nat) (l : list A) (x : A) :
  In x (firstn n l) -> In x l.
Proof.
  revert l. induction n as [|n IH]; intros [|y l]; simpl; try tauto.
  intros [E|Hin]; [left; exact E | right; apply IH, Hin].
Qed.

Lemma firstn_sorted {A} (R : A -> A -> Prop) (n : nat) (l : list A) :
  StronglySorted R l -> StronglySorted R (firstn n l).
Proof.
  revert l. induction n as [|n IH]; intros l Hl; simpl; [constructor|].
  destruct l as [|y l]; [constructor|].
  inversion Hl as [|? ? Htail Hhead]; subst.
  constructor; [apply IH, Htail|].
  rewrite Forall_forall in *. intros w Hw. apply Hhead.
  apply (firstn_In n l w Hw).
Qed.

Lemma sorted_weaken {A} (R S : A -> A -> Prop) (l : list A) :
  (forall x y, In x l -> In y l -> R x y -> S x y) ->
  StronglySorted R l -> StronglySorted S l.
Proof.
  intros Himp Hl. induction Hl as [|x l Hl IH Hx]; [constructor|].
  constructor.
  - apply IH. intros a b Ha Hb. apply Himp; right; assumption.
  - rewrite Forall_forall in *. intros w Hw.
    apply Himp; [left; reflexivity | right; exact Hw | apply Hx, Hw].
Qed.

Lemma asc_nulls_last_total {K} (leb : K -> K -> bool) :
  (forall x y, leb x y = true \/ leb y x = true) ->
  forall a b, asc_nulls_last leb a b = true \/ asc_nulls_last leb b a = true.
Proof.
  intros Htot [x|] [y|]; simpl; auto.
Qed.

Lemma asc_nulls_last_trans {K} (leb : K -> K -> bool) :
  (forall x y z, leb x y = true -> leb y z = true -> leb x z = true) ->
  forall a b c,
    asc_nulls_last leb a b = true -> asc_nulls_last leb b c = true ->
    asc_nulls_last leb a c = true.
Proof.
  intros Htr [x|] [y|] [z|]; simpl; try congruence. apply Htr.
Qed.

Lemma desc_nulls_first_total (a b : option Z) :
  desc_nulls_first Z.leb a b = true \/ desc_nulls_first Z.leb b a = true.
Proof.
  destruct a as [x|], b as [y|]; simpl; auto.
  destruct (Z.leb_spec y x), (Z.leb_spec x y); auto; lia.
Qed.

Lemma desc_nulls_first_trans (a b c : option Z) :
  desc_nulls_first Z.leb a b = true -> desc_nulls_first Z.leb b c = true ->
  desc_nulls_first Z.leb a c = true.
Proof.
  destruct a as [x|], b as [y|], c as [z|]; simpl; try congruence.
  rewrite !Z.leb_le. lia.
Qed.

Section OrderedListings.
Context {F : Type} `{FloatOps F}.

Lemma high_risk_condition_sound (p : Policy F) :
  sql_is_true (high_risk_condition p) = true -> is_high_risk p.
Proof.
  unfold high_risk_condition, is_high_risk, sql_cmp.
  destruct (estimated_impact p) as [x|], (impact_confidence p) as [c|];
    simpl.
  - destruct (fltb x (fof_Z (-100))) eqn:Ex.
    + intros _. left. eauto.
    + destruct (fltb c (flit (6 # 10))) eqn:Ec; [|discriminate].
      intros _. right. eauto.
  - destruct (fltb x (fof_Z (-100))) eqn:Ex; [|discriminate].
    intros _. left. eauto.
  - destruct (fltb c (flit (6 # 10))) eqn:Ec; [|discriminate].
    intros _. right. eauto.
  - discriminate.
Qed.

(** C4: the high-risk listing answers with rows of the table that each
    satisfy (estimated_impact < -100) OR (impact_confidence < 0.6), in
    ascending order of [estimated_impact]; its only other answer is the
    validation error for a [limit] outside 1..500. *)
Theorem high_risk_listing_filtered_ascending {HO : @FloatOrder F _}
    (db : DB F) (limit : option Z) :
  match get_high_risk_policies db limit with
  | Ok rows =>
      Forall is_high_risk rows
      /\ StronglySorted impact_ascending rows
      /\ incl rows (policies db)
  | HTTPError code _ =>
      code = 422 /\ exists v, limit = Some v /\ (v < 1 \/ 500 < v)
  end.
Proof.
  unfold get_high_risk_policies, Query_int.
  assert (Hpage : forall n,
    let rows :=
      firstn n
        (order_by
           (fun a b =>
              asc_nulls_last fleb (estimated_impact a) (estimated_impact b))
           (filter (fun p => sql_is_true (high_risk_condition p))
              (policies db))) in
    Forall is_high_risk rows /\ StronglySorted impact_ascending rows
    /\ incl rows (policies db)).
  { intros n rows. subst rows. split; [|split].
    - rewrite Forall_forall. intros p Hp.
      apply firstn_In, order_by_In, filter_In in Hp.
      apply high_risk_condition_sound, Hp.
    - apply firstn_sorted. unfold impact_ascending.
      apply (order_by_sorted
               (fun a b : Policy F =>
                  asc_nulls_last fleb (estimated_impact a)
                    (estimated_impact b))).
      + intros x y. apply asc_nulls_last_total, fleb_total.
      + intros x y z. apply asc_nulls_last_trans, fleb_trans.
    - intros p Hp. apply firstn_In, order_by_In, filter_In in Hp. apply Hp. }
  destruct limit as [v|]; [|apply Hpage].
  simpl. destruct (Z.leb 1 v) eqn:H1; simpl.
  - destruct (Z.leb v 500) eqn:H2; [apply Hpage|].
    split; [reflexivity|]. exists v. split; [reflexivity|].
    apply Z.leb_gt in H2. lia.
  - split; [reflexivity|]. exists v. split; [reflexivity|].
    apply Z.leb_gt in H1. lia.
Qed.

Lemma recent_condition_sound (cutoff : datetime) (p : Policy F) :
  sql_is_true (sql_cmp Z.geb (proposed_date p) cutoff) = true ->
  is_recent cutoff p.
Proof.
  unfold is_recent, sql_cmp.
  destruct (proposed_date p) as [d|]; simpl; [|discriminate].
  destruct (Z.geb d cutoff) eqn:E; [|discriminate].
  intros _. exists d. split; [reflexivity|].
  apply Z.geb_le in E. exact E.
Qed.

(** C5: the recent listing answers with rows whose [proposed_date] is at
    or after [now] minus the validated number of days, in descending order
    of [proposed_date]; its only other answer is the validation error for
    [days] or [limit] out of their bounds. *)
Theorem recent_listing_filtered_descending (db : DB F) (now : datetime)
    (days limit : option Z) :
  match get_recent_policies db now days limit with
  | Ok rows =>
      exists d,
        Query_int 30 (Some 1) (Some 365) days = Ok d
        /\ Forall (is_recent (now - timedelta_days d)) rows
        /\ StronglySorted date_descending rows
  | HTTPError code _ => code = 422
  end.
Proof.
  unfold get_recent_policies.
  destruct (Query_int_cases 30 (Some 1) (Some 365) days) as [[d Hd]|Hd];
    rewrite Hd; [|reflexivity].
  destruct (Query_int_cases 50 (Some 1) (Some 500) limit) as [[n Hn]|Hn];
    rewrite Hn; [|reflexivity].
  exists d. split; [reflexivity|].
  set (cutoff := now - timedelta_days d).
  set (rows := firstn _ _).
  assert (Hrecent : Forall (is_recent cutoff) rows).
  { rewrite Forall_forall. intros p Hp. subst rows.
    apply firstn_In, order_by_In, filter_In in Hp.
    apply recent_condition_sound, Hp. }
  split; [exact Hrecent|].
  apply sorted_weaken with
    (R := fun a b : Policy F =>
            desc_nulls_first Z.leb (proposed_date a) (proposed_date b) = true).
  - rewrite Forall_forall in Hrecent.
    intros a b Ha Hb Hab.
    destruct (Hrecent a Ha) as [x [Hx _]], (Hrecent b Hb) as [y [Hy _]].
    exists x, y. rewrite Hx, Hy in Hab. simpl in Hab.
    apply Z.leb_le in Hab. auto.
  - subst rows. apply firstn_sorted.
    apply (order_by_sorted
             (fun a b : Policy F =>
                desc_nulls_first Z.leb (proposed_date a) (proposed_date b))).
    + intros x y. apply desc_nulls_first_total.
    + intros x y z. apply desc_nulls_first_trans.
Qed.

End OrderedListings.

Lemma Qle_bool_order : @FloatOrder Q Q_FloatOps.
Proof.
  constructor; simpl.
  - intros x y. rewrite !Qle_bool_iff.
    destruct (Qlt_le_dec x y) as [Hlt|Hle];
      [left; apply Qlt_le_weak, Hlt | right; exact Hle].
  - intros x y z. rewrite !Qle_bool_iff. apply Qle_trans.
Qed.

Lemma high_risk_listing_filtered_ascending_witness :
  exists rows,
    get_high_risk_policies (db_of risk_rows) (Some 2) = Ok rows
    /\ map (@id Q) rows = [3; 1]
    /\ Forall is_high_risk rows
    /\ StronglySorted impact_ascending rows.
Proof.
  pose proof (@high_risk_listing_filtered_ascending Q Q_FloatOps
                Qle_bool_order (db_of risk_rows) (Some 2)) as Hlist.
  destruct (get_high_risk_policies (db_of risk_rows) (Some 2))
    as [rows|code detail] eqn:Hrows; [|discriminate Hrows].
  exists rows. split; [reflexivity|].
  split; [injection Hrows as <-; reflexivity|].
  split; apply Hlist.
Defined.

(** ** Create, read, update, delete *)







Section Crud.
Context {F : Type} `{FloatOps F}.



Lemma to_schema_of_schema (n : Z) (now : datetime) (s : PolicySchema F) :
  to_schema (Policy_of_schema n now s) = with_id n s.
Proof. reflexivity. Qed.


Lemma first_by_id_key (db : DB F) (pid : Z) (p : Policy F) :
  first_by_id db pid = Some p -> id p = pid.
Proof.
  unfold first_by_id. intros Hfind.
  apply find_some in Hfind. apply Z.eqb_eq, Hfind.
Qed.


Lemma find_appended_other (n : Z) (l : list (Policy F)) (row : Policy F) :
  id row <> n ->
  find (fun p => Z.eqb (id p) n) (l ++ [row])
  = find (fun p => Z.eqb (id p) n) l.
Proof.
  intros Hrow. induction l as [|p l IH]; simpl.
  - apply Z.eqb_neq in Hrow. rewrite Hrow. reflexivity.
  - destruct (Z.eqb (id p) n); [reflexivity | exact IH].
Qed.

Lemma accepted_fresh_key (db : DB F) (others : list (Policy F))
    (row : Policy F) :
  row_accepted db others row = true ->
  existsb (fun r => Z.eqb (id r) (id row)) others = false.
Proof.
  unfold row_accepted. intros Hacc.
  apply andb_prop in Hacc. destruct Hacc as [Hacc _].
  apply andb_prop in Hacc. destruct Hacc as [Hfresh _].
  apply negb_true_iff, Hfresh.
Qed.


Lemma existsb_others_of (pid : Z) (l : list (Policy F)) :
  existsb (fun r => Z.eqb (id r) pid) (others_of pid l) = false.
Proof.
  unfold others_of. induction l as [|p l IH]; simpl; [reflexivity|].
  destruct (Z.eqb (id p) pid) eqn:E; simpl; [exact IH|].
  rewrite E. exact IH.
Qed.


Lemma find_others_of_other (pid other : Z) (l : list (Policy F)) :
  other <> pid ->
  find (fun p => Z.eqb (id p) other) (others_of pid l)
  = find (fun p => Z.eqb (id p) other) l.
Proof.
  intros Hne. unfold others_of.
  induction l as [|p l IH]; simpl; [reflexivity|].
  destruct (Z.eqb (id p) pid) eqn:E; simpl.
  - apply Z.eqb_eq in E.
    destruct (Z.eqb (id p) other) eqn:E'; [|exact IH].
    apply Z.eqb_eq in E'. congruence.
  - destruct (Z.eqb (id p) other); [reflexivity | exact IH].
Qed.




Lemma create_policy_runs (db : DB F) (now : datetime)
    (P kept : PolicySchema F) :
  payload_has_nul P = false ->
  store_schema P = Some kept ->
  row_accepted db (policies db)
    (Policy_of_schema (policies_id_seq db) now kept) = true ->
  create_policy db now P
  = (mkDB (policies db ++ [Policy_of_schema (policies_id_seq db) now kept])
       (policy_changes db) (policy_categories db) (impact_assessments db)
       (policies_id_seq db + 1),
     Ok (with_id (policies_id_seq db) kept)).
Proof.
  intros Hnul Hkept Hacc. unfold create_policy.
  rewrite Hnul, Hkept, Hacc. reflexivity.
Qed.








End Crud.



(** ** Search *)

Lemma list_ascii_of_string_append (a b : string) :
  list_ascii_of_string (String.append a b)
  = (list_ascii_of_string a ++ list_ascii_of_string b)%list.
Proof.
  induction a as [|c a IH]; simpl; [reflexivity | rewrite IH; reflexivity].
Qed.

Lemma like_tok_of_plain (c : ascii) :
  like_special c = false ->
  Ascii.eqb c "\"%char = false /\ like_tok_of c = Lit c.
Proof.
  unfold like_special, like_tok_of. intros Hc.
  apply orb_false_iff in Hc. destruct Hc as [Hc Hbs].
  apply orb_false_iff in Hc. destruct Hc as [Hpc Hus].
  rewrite Hpc, Hus. split; [exact Hbs | reflexivity].
Qed.

Lemma like_parse_plain (cs : list ascii) (rest : list ascii)
    (toks : list like_tok) :
  forallb (fun c => negb (like_special c)) cs = true ->
  like_parse false rest = Some toks ->
  like_parse false (cs ++ rest)%list = Some (map Lit cs ++ toks)%list.
Proof.
  intros Hplain Hrest. induction cs as [|c cs IH]; [exact Hrest|].
  simpl in Hplain. apply andb_prop in Hplain. destruct Hplain as [Hc Hcs].
  apply negb_true_iff in Hc. destruct (like_tok_of_plain c Hc) as [Hbs Htok].
  simpl. rewrite Hbs, Htok, (IH Hcs). reflexivity.
Qed.

Lemma like_parse_search_pattern (q : string) :
  plain_query q = true ->
  like_parse false
    (list_ascii_of_string (String.append "%" (String.append q "%")))
  = Some (AnyRun :: map Lit (list_ascii_of_string q) ++ [AnyRun])%list.
Proof.
  intros Hplain. rewrite !list_ascii_of_string_append.
  change (list_ascii_of_string "%") with ["%"%char].
  change (like_parse false
            (["%"%char] ++ list_ascii_of_string q ++ ["%"%char])%list)
    with (option_map (cons AnyRun)
            (like_parse false (list_ascii_of_string q ++ ["%"%char])%list)).
  rewrite (@like_parse_plain (list_ascii_of_string q) ["%"%char] [AnyRun]
             Hplain eq_refl).
  reflexivity.
Qed.

Lemma like_match_run (p : list like_tok) (s : list ascii) :
  like_match (AnyRun :: p) s
  = like_match p s
    || match s with [] => false | _ :: s' => like_match (AnyRun :: p) s' end.
Proof. destruct s; reflexivity. Qed.

Lemma like_match_any (s : list ascii) : like_match [AnyRun] s = true.
Proof.
  induction s as [|c s IH]; [reflexivity|].
  rewrite like_match_run. rewrite IH. apply orb_true_r.
Qed.

Lemma like_match_prefix (q s : list ascii) :
  like_match (map Lit q ++ [AnyRun])%list s = ci_prefix q s.
Proof.
  revert s. induction q as [|c q IH]; intros s.
  - simpl map. simpl app. rewrite like_match_any. destruct s; reflexivity.
  - destruct s as [|d s]; [reflexivity|].
    simpl. rewrite <- IH. reflexivity.
Qed.

Lemma like_match_substring (q s : list ascii) :
  like_match (AnyRun :: map Lit q ++ [AnyRun])%list s = ci_substring q s.
Proof.
  induction s as [|d s IH].
  - rewrite like_match_run, like_match_prefix. reflexivity.
  - rewrite like_match_run, like_match_prefix, IH. reflexivity.
Qed.

Lemma ilike_plain (q : string) (col : option string) :
  plain_query q = true ->
  ilike col (String.append "%" (String.append q "%"))
  = Some (option_map
            (fun s => ci_substring (list_ascii_of_string q)
                        (list_ascii_of_string s)) col).
Proof.
  intros Hplain. unfold ilike. rewrite (like_parse_search_pattern q Hplain).
  destruct col as [s|]; unfold sql_cmp, option_map; [|reflexivity].
  rewrite like_match_substring. reflexivity.
Qed.

Lemma sql_is_true_or (a b : option bool) :
  sql_is_true (sql_or a b) = sql_is_true a || sql_is_true b.
Proof. destruct a as [[|]|], b as [[|]|]; reflexivity. Qed.

Lemma sql_is_true_occurs (q : string) (col : option string) :
  sql_is_true
    (option_map
       (fun s => ci_substring (list_ascii_of_string q)
                   (list_ascii_of_string s)) col)
  = ci_occurs q col.
Proof.
  destruct col as [s|]; simpl; [|reflexivity].
  destruct (ci_substring _ _); reflexivity.
Qed.

Section Search.
Context {F : Type} `{FloatOps F}.

Lemma search_condition_plain (q : string) (p : Policy F) :
  plain_query q = true ->
  exists c,
    search_condition q p = Some c /\ sql_is_true c = spec_search_match q p.
Proof.
  intros Hplain. unfold search_condition.
  rewrite !(fun col => @ilike_plain q col Hplain).
  eexists. split; [reflexivity|].
  rewrite !sql_is_true_or, !sql_is_true_occurs. reflexivity.
Qed.

Lemma search_rows_plain (q : string) (l : list (Policy F)) :
  plain_query q = true ->
  search_rows q l = Some (filter (spec_search_match q) l).
Proof.
  intros Hplain. induction l as [|p l IH]; [reflexivity|].
  simpl. destruct (@search_condition_plain q p Hplain) as [c [Hc Htrue]].
  rewrite Hc, IH, Htrue. reflexivity.
Qed.

(** C8, amended: for a query string of ASCII characters, none of them
    [%], [_], backslash or NUL, on policies whose title, description and
    content summary are ASCII text, and for a [skip] below 2^63, the search
    answers with the page (after [skip], at most [limit] rows, 0 and 100
    when absent) of the policies in which the string occurs, the letters A
    to Z read as a to z, in the title, the description or the content
    summary; when exactly one policy has such an occurrence, the default
    page is exactly that policy. *)
Theorem search_returns_page_of_substring_matches (db : DB F) (q : string)
    (skip limit : option Z) :
  plain_query q = true ->
  ascii_text q = true ->
  forallb ascii_fields (policies db) = true ->
  (forall s n,
      Query_int 0 (Some 0) None skip = Ok s ->
      Query_int 100 (Some 1) (Some 1000) limit = Ok n ->
      s <= bigint_max ->
      search_policies db q skip limit
      = Ok (offset_limit s n (filter (spec_search_match q) (policies db))))
  /\ (forall p,
         filter (spec_search_match q) (policies db) = [p] ->
         search_policies db q None None = Ok [p]).
Proof.
  intros Hplain _ _. split.
  - intros s n Hs Hn Hbig. unfold search_policies, paginate.
    rewrite Hs, Hn, (@search_rows_plain q (policies db) Hplain).
    apply Z.leb_le in Hbig. rewrite Hbig. reflexivity.
  - intros p Hone. unfold search_policies. simpl.
    rewrite (@search_rows_plain q (policies db) Hplain), Hone. reflexivity.
Qed.

End Search.

(** C8, as stated, fails: the query [_] is in no field of the row, and the
    search returns the row. *)
Lemma underscore_query_returns_unmatched_row :
  search_policies (db_of [short_title_row]) "_" None None
  = Ok [short_title_row]
  /\ spec_search_match "_" short_title_row = false.
Proof.
  split; reflexivity.
Qed.

Lemma search_returns_page_of_substring_matches_witness :
  plain_query "PRICING" = true
  /\ ascii_text "PRICING" = true
  /\ forallb ascii_fields [enacted_row; described_row] = true
  /\ description described_row = Some "Covers carbon pricing"%string
  /\ search_policies (db_of [enacted_row; described_row]) "PRICING" None None
     = Ok [described_row]
  /\ search_policies (db_of [enacted_row; described_row]) "PRICING" (Some 1)
       (Some 5)
     = Ok [].
Proof.
  split; [reflexivity|]. split; [reflexivity|]. split; [reflexivity|].
  split; [reflexivity|].
  pose proof (@search_returns_page_of_substring_matches Q
                (db_of [enacted_row; described_row]) "PRICING") as Hsearch.
  split.
  - apply (proj2 (Hsearch None None eq_refl eq_refl eq_refl)).
    reflexivity.
  - apply (proj1 (Hsearch (Some 1) (Some 5) eq_refl eq_refl eq_refl) 1 5
             eq_refl eq_refl).
    discriminate.
Defined.

(** * Further properties of the routers *)

(** ** Pages of the listing *)

Lemma skipn_In {A} (n : nat) (l : list A) (x : A) :
  In x (skipn n l) -> In x l.
Proof.
  revert l. induction n as [|n IH]; intros [|y l]; simpl; try tauto.
  intros Hin. right. apply IH, Hin.
Qed.

Lemma offset_limit_In {A} (s n : Z) (l : list A) (x : A) :
  In x (offset_limit s n l) -> In x l.
Proof.
  unfold offset_limit. intros Hin.
  apply firstn_In in Hin. apply skipn_In in Hin. exact Hin.
Qed.

Lemma offset_limit_length {A} (s n : Z) (l : list A) :
  0 <= n -> Z.of_nat (List.length (offset_limit s n l)) <= n.
Proof.
  intros Hn. unfold offset_limit.
  pose proof (firstn_le_length (Z.to_nat n) (skipn (Z.to_nat s) l)). lia.
Qed.

Lemma paginate_some {A} (s n : Z) (l page : list A) :
  paginate s n l = Some page -> page = offset_limit s n l.
Proof.
  unfold paginate. destruct (Z.leb s bigint_max); [|discriminate].
  intros Hpage. injection Hpage as <-. reflexivity.
Qed.

Lemma paginate_small {A} (s n : Z) (l : list A) :
  s <= bigint_max -> paginate s n l = Some (offset_limit s n l).
Proof.
  intros Hs. unfold paginate. apply Z.leb_le in Hs. rewrite Hs. reflexivity.
Qed.


Lemma Query_skip_range (skip : option Z) (s : Z) :
  Query_int 0 (Some 0) None skip = Ok s -> 0 <= s.
Proof.
  destruct skip as [v|]; simpl.
  - destruct (Z.leb 0 v) eqn:E; simpl; [|discriminate].
    intros Heq. injection Heq as <-. apply Z.leb_le, E.
  - intros Heq. injection Heq as <-. lia.
Qed.

Lemma Query_limit_range (default top : Z) (limit : option Z) (n : Z) :
  1 <= default <= top ->
  Query_int default (Some 1) (Some top) limit = Ok n -> 1 <= n <= top.
Proof.
  intros Hdef. destruct limit as [v|]; simpl.
  - destruct (Z.leb 1 v) eqn:E1; simpl; [|discriminate].
    destruct (Z.leb v top) eqn:E2; [|discriminate].
    intros Heq. injection Heq as <-.
    apply Z.leb_le in E1. apply Z.leb_le in E2. lia.
  - intros Heq. injection Heq as <-. exact Hdef.
Qed.

Lemma PolicyStatus_eqb_eq (a b : PolicyStatus) :
  PolicyStatus_eqb a b = true -> a = b.
Proof. destruct a, b; simpl; congruence. Qed.

Lemma PolicyStatus_name_of_name (v : string) (st : PolicyStatus) :
  PolicyStatus_of_name v = Some st -> PolicyStatus_name st = v.
Proof.
  unfold PolicyStatus_of_name. intros Hfind.
  apply find_some in Hfind. apply String.eqb_eq, Hfind.
Qed.

Section ListingPages.
Context {F : Type} `{FloatOps F}.

Lemma get_policies_run (db : DB F) (skip limit : option Z) (s n : Z)
    (j i st : option string) (c : option Z) (sd ed : option datetime) :
  Query_int 0 (Some 0) None skip = Ok s ->
  Query_int 100 (Some 1) (Some 1000) limit = Ok n ->
  get_policies db skip limit j i st c sd ed
  = match listing_rows db j i st c sd ed with
    | Some q =>
        match paginate s n q with
        | Some page => Ok page
        | None => HTTPError 500 "Error fetching policies"
        end
    | None => HTTPError 500 "Error fetching policies"
    end.
Proof.
  intros Hs Hn. unfold get_policies. rewrite Hs, Hn.
  unfold get_policies_body, listing_rows.
  destruct (filter_status st
              (filter_industry i (filter_jurisdiction j (policies db))));
    reflexivity.
Qed.

Lemma filter_jurisdiction_In (j : option string) (l : list (Policy F))
    (p : Policy F) :
  In p (filter_jurisdiction j l) ->
  In p l /\ (forall v, truthy_str j = Some v -> jurisdiction p = v).
Proof.
  unfold filter_jurisdiction. destruct (truthy_str j) as [w|].
  - intros Hin. apply filter_In in Hin. destruct Hin as [Hin Heq].
    split; [exact Hin|]. intros v Hv. injection Hv as <-.
    apply String.eqb_eq, Heq.
  - intros Hin. split; [exact Hin | discriminate].
Qed.

Lemma filter_industry_In (i : option string) (l : list (Policy F))
    (p : Policy F) :
  In p (filter_industry i l) ->
  In p l
  /\ (forall v, truthy_str i = Some v ->
                exists tags, affected_industries p = Some tags /\ In v tags).
Proof.
  unfold filter_industry. destruct (truthy_str i) as [w|].
  - intros Hin. apply filter_In in Hin. destruct Hin as [Hin Hcond].
    split; [exact Hin|]. intros v Hv. injection Hv as <-.
    unfold sql_cmp in Hcond.
    destruct (affected_industries p) as [tags|]; [|discriminate].
    exists tags. split; [reflexivity|].
    simpl in Hcond.
    destruct (existsb (String.eqb w) tags) eqn:Hex; [|discriminate].
    apply existsb_exists in Hex. destruct Hex as [t [Ht Heq]].
    apply String.eqb_eq in Heq. subst t. exact Ht.
  - intros Hin. split; [exact Hin | discriminate].
Qed.

Lemma filter_status_In (st : option string) (l q : list (Policy F))
    (p : Policy F) :
  filter_status st l = Some q ->
  In p q ->
  In p l
  /\ (forall v, truthy_str st = Some v -> PolicyStatus_name (status p) = v).
Proof.
  unfold filter_status. destruct (truthy_str st) as [w|].
  - destruct (PolicyStatus_of_name w) as [m|] eqn:Hm; [|discriminate].
    intros Hq Hin. injection Hq as <-.
    apply filter_In in Hin. destruct Hin as [Hin Heq].
    split; [exact Hin|]. intros v Hv. injection Hv as <-.
    apply PolicyStatus_eqb_eq in Heq. rewrite Heq.
    apply PolicyStatus_name_of_name, Hm.
  - intros Hq Hin. injection Hq as <-. split; [exact Hin | discriminate].
Qed.

Lemma filter_category_In (c : option Z) (l : list (Policy F)) (p : Policy F) :
  In p (filter_category c l) ->
  In p l /\ (forall v, truthy_int c = Some v -> category_id p = Some v).
Proof.
  unfold filter_category. destruct (truthy_int c) as [w|].
  - intros Hin. apply filter_In in Hin. destruct Hin as [Hin Hcond].
    split; [exact Hin|]. intros v Hv. injection Hv as <-.
    unfold sql_cmp in Hcond.
    destruct (category_id p) as [k|]; [|discriminate].
    simpl in Hcond. destruct (Z.eqb k w) eqn:E; [|discriminate].
    apply Z.eqb_eq in E. congruence.
  - intros Hin. split; [exact Hin | discriminate].
Qed.

Lemma filter_start_date_In (sd : option datetime) (l : list (Policy F))
    (p : Policy F) :
  In p (filter_start_date sd l) ->
  In p l
  /\ (forall v, sd = Some v -> exists d, proposed_date p = Some d /\ v <= d).
Proof.
  unfold filter_start_date. destruct sd as [w|].
  - intros Hin. apply filter_In in Hin. destruct Hin as [Hin Hcond].
    split; [exact Hin|]. intros v Hv. injection Hv as <-.
    unfold sql_cmp in Hcond.
    destruct (proposed_date p) as [d|]; [|discriminate].
    simpl in Hcond. destruct (Z.geb d w) eqn:E; [|discriminate].
    exists d. split; [reflexivity|]. apply Z.geb_le in E. exact E.
  - intros Hin. split; [exact Hin | discriminate].
Qed.

Lemma filter_end_date_In (ed : option datetime) (l : list (Policy F))
    (p : Policy F) :
  In p (filter_end_date ed l) ->
  In p l
  /\ (forall v, ed = Some v -> exists d, proposed_date p = Some d /\ d <= v).
Proof.
  unfold filter_end_date. destruct ed as [w|].
  - intros Hin. apply filter_In in Hin. destruct Hin as [Hin Hcond].
    split; [exact Hin|]. intros v Hv. injection Hv as <-.
    unfold sql_cmp in Hcond.
    destruct (proposed_date p) as [d|]; [|discriminate].
    simpl in Hcond. destruct (Z.leb d w) eqn:E; [|discriminate].
    exists d. split; [reflexivity|]. apply Z.leb_le in E. exact E.
  - intros Hin. split; [exact Hin | discriminate].
Qed.

Lemma listing_rows_sound (db : DB F) (j i st : option string)
    (c : option Z) (sd ed : option datetime) (q : list (Policy F))
    (p : Policy F) :
  listing_rows db j i st c sd ed = Some q ->
  In p q ->
  In p (policies db) /\ passes_filters j i st c sd ed p.
Proof.
  unfold listing_rows. intros Hq Hin.
  destruct (filter_status st
              (filter_industry i (filter_jurisdiction j (policies db))))
    as [q0|] eqn:Hst; [|discriminate].
  simpl in Hq. injection Hq as <-.
  apply filter_end_date_In in Hin. destruct Hin as [Hin Hed].
  apply filter_start_date_In in Hin. destruct Hin as [Hin Hsd].
  apply filter_category_In in Hin. destruct Hin as [Hin Hc].
  destruct (@filter_status_In st _ q0 p Hst Hin) as [Hin' Hs].
  apply filter_industry_In in Hin'. destruct Hin' as [Hin' Hi].
  apply filter_jurisdiction_In in Hin'. destruct Hin' as [Hin' Hj].
  split; [exact Hin'|]. unfold passes_filters. auto 10.
Qed.

(** X1: the listing answers with at most [limit] rows (100 when [limit] is
    absent), all of them rows of the table; its only other answers are
    the validation error 422 and the failure 500. *)
Theorem listing_page_bounded (db : DB F) (skip limit : option Z)
    (j i st : option string) (c : option Z) (sd ed : option datetime) :
  match get_policies db skip limit j i st c sd ed with
  | Ok rows =>
      exists n,
        Query_int 100 (Some 1) (Some 1000) limit = Ok n
        /\ 1 <= n <= 1000
        /\ Z.of_nat (List.length rows) <= n
        /\ incl rows (policies db)
  | HTTPError code _ => code = 422 \/ code = 500
  end.
Proof.
  destruct (Query_int_cases 0 (Some 0) None skip) as [[s Hs]|Hs].
  - destruct (Query_int_cases 100 (Some 1) (Some 1000) limit) as [[n Hn]|Hn].
    + rewrite (@get_policies_run db skip limit s n j i st c sd ed Hs Hn).
      destruct (listing_rows db j i st c sd ed) as [q|] eqn:Hq;
        [|right; reflexivity].
      destruct (paginate s n q) as [page|] eqn:Hpage; [|right; reflexivity].
      apply paginate_some in Hpage. subst page.
      assert (Hrange : 1 <= n <= 1000)
        by (apply (@Query_limit_range 100 1000 limit n); [lia | exact Hn]).
      exists n. split; [exact Hn|]. split; [exact Hrange|].
      split; [apply offset_limit_length; lia|].
      intros p Hp. apply offset_limit_In in Hp.
      apply (@listing_rows_sound db j i st c sd ed q p Hq Hp).
    + unfold get_policies. rewrite Hs, Hn. left; reflexivity.
  - unfold get_policies. rewrite Hs. left; reflexivity.
Qed.

(** X2: every row the listing returns meets every filter that was given a
    truthy value: equal jurisdiction, the industry among its tags, the
    status of that member name, equal category, and a [proposed_date]
    between the two bounds, both inclusive. *)
Theorem listing_rows_pass_filters (db : DB F) (skip limit : option Z)
    (j i st : option string) (c : option Z) (sd ed : option datetime) :
  match get_policies db skip limit j i st c sd ed with
  | Ok rows => Forall (passes_filters j i st c sd ed) rows
  | HTTPError _ _ => True
  end.
Proof.
  destruct (Query_int_cases 0 (Some 0) None skip) as [[s Hs]|Hs].
  - destruct (Query_int_cases 100 (Some 1) (Some 1000) limit) as [[n Hn]|Hn].
    + rewrite (@get_policies_run db skip limit s n j i st c sd ed Hs Hn).
      destruct (listing_rows db j i st c sd ed) as [q|] eqn:Hq; [|exact I].
      destruct (paginate s n q) as [page|] eqn:Hpage; [|exact I].
      apply paginate_some in Hpage. subst page.
      rewrite Forall_forall. intros p Hp. apply offset_limit_In in Hp.
      apply (@listing_rows_sound db j i st c sd ed q p Hq Hp).
    + unfold get_policies. rewrite Hs, Hn. exact I.
  - unfold get_policies. rewrite Hs. exact I.
Qed.


(** X5: a status filter that names a member selects the rows of that
    status: the member's name is read back as the member, and the listing
    filtered by it alone, for a [skip] below 2^63, is the page of the rows
    whose status it is. *)
Theorem status_filter_selects_member (db : DB F) (skip limit : option Z)
    (m : PolicyStatus) :
  PolicyStatus_of_name (PolicyStatus_name m) = Some m
  /\ forall s n,
       Query_int 0 (Some 0) None skip = Ok s ->
       Query_int 100 (Some 1) (Some 1000) limit = Ok n ->
       s <= bigint_max ->
       get_policies db skip limit None None (Some (PolicyStatus_name m)) None
         None None
       = Ok (offset_limit s n
               (filter (fun p => PolicyStatus_eqb (status p) m)
                  (policies db))).
Proof.
  split; [destruct m; reflexivity|].
  intros s n Hs Hn Hbig.
  rewrite (@get_policies_run db skip limit s n None None
             (Some (PolicyStatus_name m)) None None None Hs Hn).
  assert (Hrows : listing_rows db None None (Some (PolicyStatus_name m))
                    None None None
                  = Some (filter (fun p => PolicyStatus_eqb (status p) m)
                            (policies db)))
    by (unfold listing_rows, filter_status; destruct m; reflexivity).
  rewrite Hrows. rewrite (paginate_small n _ Hbig). reflexivity.
Qed.

End ListingPages.

(** ** The two breakdowns as tallies *)

Lemma keys_dict_set (d : Dict) (k : string) (v : nat) :
  map fst (dict_set d k v) = note_key (map fst d) k.
Proof.
  unfold note_key. induction d as [|[k0 v0] d IH]; simpl; [reflexivity|].
  rewrite (String.eqb_sym k k0).
  destruct (String.eqb k0 k); simpl; [reflexivity|].
  rewrite IH. destruct (existsb (String.eqb k) (map fst d)); reflexivity.
Qed.

Lemma keys_tally (ks : list string) (d : Dict) :
  map fst (fold_left dict_incr ks d) = fold_left note_key ks (map fst d).
Proof.
  revert d. induction ks as [|k ks IH]; intros d; simpl; [reflexivity|].
  rewrite IH. unfold dict_incr. rewrite keys_dict_set. reflexivity.
Qed.

Lemma note_key_In (seen : list string) (k x : string) :
  In x (note_key seen k) <-> In x seen \/ x = k.
Proof.
  unfold note_key. destruct (existsb (String.eqb k) seen) eqn:E.
  - apply existsb_exists in E. destruct E as [y [Hy Heq]].
    apply String.eqb_eq in Heq. subst y.
    split; [auto | intros [Hx| ->]; assumption].
  - rewrite in_app_iff. simpl. intuition congruence.
Qed.

Lemma note_key_NoDup (seen : list string) (k : string) :
  NoDup seen -> NoDup (note_key seen k).
Proof.
  intros Hnd. unfold note_key.
  destruct (existsb (String.eqb k) seen) eqn:E; [exact Hnd|].
  apply NoDup_rev in Hnd. rewrite <- (rev_involutive (seen ++ [k])).
  apply NoDup_rev. rewrite rev_app_distr. simpl.
  constructor; [|exact Hnd].
  intros Hin. apply in_rev in Hin.
  assert (Hex : existsb (String.eqb k) seen = true)
    by (apply existsb_exists; exists k; split;
        [exact Hin | apply String.eqb_refl]).
  congruence.
Qed.

Lemma first_seen_from_In (ks seen : list string) (x : string) :
  In x (fold_left note_key ks seen) <-> In x seen \/ In x ks.
Proof.
  revert seen. induction ks as [|k ks IH]; intros seen; simpl; [tauto|].
  rewrite IH, note_key_In. intuition congruence.
Qed.

Lemma first_seen_from_NoDup (ks seen : list string) :
  NoDup seen -> NoDup (fold_left note_key ks seen).
Proof.
  revert seen. induction ks as [|k ks IH]; intros seen Hnd; simpl;
    [exact Hnd | apply IH, note_key_NoDup, Hnd].
Qed.

Lemma dict_set_positive (d : Dict) (k : string) (v : nat) :
  (0 < v)%nat ->
  Forall (fun kv => (0 < snd kv)%nat) d ->
  Forall (fun kv => (0 < snd kv)%nat) (dict_set d k v).
Proof.
  intros Hv. induction 1 as [|[k0 v0] d Hk Hd IH]; simpl.
  - constructor; [exact Hv | constructor].
  - destruct (String.eqb k0 k); constructor; assumption.
Qed.

Lemma tally_positive (ks : list string) (d : Dict) :
  Forall (fun kv => (0 < snd kv)%nat) d ->
  Forall (fun kv => (0 < snd kv)%nat) (fold_left dict_incr ks d).
Proof.
  revert d. induction ks as [|k ks IH]; intros d Hd; simpl; [exact Hd|].
  apply IH. unfold dict_incr. apply dict_set_positive; [lia | exact Hd].
Qed.

Section Tallies.
Context {F : Type} `{FloatOps F}.

Lemma count_jurisdictions_as_tally (l : list (Policy F)) (d : Dict) :
  fold_left (fun d p => dict_incr d (jurisdiction p)) l d
  = fold_left dict_incr (map (@jurisdiction F) l) d.
Proof.
  revert d. induction l as [|p l IH]; intros d; simpl;
    [reflexivity | apply IH].
Qed.

Lemma count_industries_as_tally (l : list (Policy F)) (d : Dict) :
  fold_left count_tags l d = fold_left dict_incr (flat_map tags_of l) d.
Proof.
  revert d. induction l as [|p l IH]; intros d; simpl; [reflexivity|].
  rewrite fold_left_app, IH, count_tags_as_loop. reflexivity.
Qed.

(** X6: [jurisdiction_breakdown] gives each jurisdiction the number of
    filtered policies that carry it, its values add up to
    [total_policies], no value is zero, and its keys are the jurisdictions
    met, each once, in the order of their first policy. *)
Theorem jurisdiction_breakdown_tallies_rows (l : list (Policy F))
    (sd ed : option datetime) :
  let sm := summarize l sd ed in
  (forall j, dict_get (jurisdiction_breakdown sm) j 0
             = count_occ string_dec (map (@jurisdiction F) l) j)
  /\ dict_total (jurisdiction_breakdown sm) = total_policies sm
  /\ Forall (fun kv => (0 < snd kv)%nat) (jurisdiction_breakdown sm)
  /\ map fst (jurisdiction_breakdown sm)
     = first_seen (map (@jurisdiction F) l)
  /\ NoDup (map fst (jurisdiction_breakdown sm)).
Proof.
  simpl. unfold count_jurisdictions.
  rewrite count_jurisdictions_as_tally.
  split; [intros j; rewrite tags_loop_get; reflexivity|].
  split; [rewrite tags_loop_total, length_map; reflexivity|].
  split; [apply tally_positive; constructor|].
  rewrite keys_tally. split; [reflexivity|].
  apply first_seen_from_NoDup. constructor.
Qed.

(** X7: [industry_breakdown] gives each tag the number of times the
    filtered policies list it; it has a key exactly for the tags some
    policy lists, each once and in the order they are first met, and no
    value is zero. *)
Theorem industry_breakdown_tallies_tags (l : list (Policy F))
    (sd ed : option datetime) :
  let sm := summarize l sd ed in
  (forall k, dict_get (industry_breakdown sm) k 0
             = count_occ string_dec (flat_map tags_of l) k)
  /\ Forall (fun kv => (0 < snd kv)%nat) (industry_breakdown sm)
  /\ map fst (industry_breakdown sm) = first_seen (flat_map tags_of l)
  /\ NoDup (map fst (industry_breakdown sm))
  /\ (forall k, In k (map fst (industry_breakdown sm))
                <-> exists p, In p l /\ In k (tags_of p)).
Proof.
  simpl. unfold count_industries. rewrite count_industries_as_tally.
  split; [intros k; rewrite tags_loop_get; reflexivity|].
  split; [apply tally_positive; constructor|].
  rewrite keys_tally. split; [reflexivity|].
  split; [apply first_seen_from_NoDup; constructor|].
  intros k. simpl. rewrite first_seen_from_In, in_flat_map.
  simpl. tauto.
Qed.

End Tallies.

(** ** Reads and writes of single policies *)

Section Writes.
Context {F : Type} `{FloatOps F}.

Lemma find_id_none (pid : Z) (l : list (Policy F)) :
  find (fun p => Z.eqb (id p) pid) l = None
  <-> forall p, In p l -> id p <> pid.
Proof.
  split.
  - intros Hnone p Hin Heq.
    pose proof (find_none _ _ Hnone p Hin) as Hp. simpl in Hp.
    apply Z.eqb_neq in Hp. contradiction.
  - intros Hall. induction l as [|p l IH]; simpl; [reflexivity|].
    destruct (Z.eqb (id p) pid) eqn:E.
    + apply Z.eqb_eq in E. exfalso.
      apply (Hall p); [left; reflexivity | exact E].
    + apply IH. intros x Hx. apply Hall. right. exact Hx.
Qed.

(** X8: the single-policy lookup answers with a stored row whose key is
    the requested one, and answers 404 exactly when no stored row has that
    key. *)
Theorem get_policy_finds_requested_key (db : DB F) (pid : Z) :
  (forall R, get_policy db pid = Ok R ->
             s_id R = Some pid
             /\ exists p, In p (policies db) /\ id p = pid /\ R = to_schema p)
  /\ (get_policy db pid = HTTPError 404 "Policy not found"
      <-> forall p, In p (policies db) -> id p <> pid).
Proof.
  unfold get_policy, first_by_id. split.
  - intros R.
    destruct (find (fun p => Z.eqb (id p) pid) (policies db)) as [p|] eqn:Hp;
      [|discriminate].
    intros HR. injection HR as <-.
    apply find_some in Hp. destruct Hp as [Hin Heq].
    apply Z.eqb_eq in Heq. simpl. split; [congruence|].
    exists p. auto.
  - rewrite <- find_id_none.
    destruct (find (fun p => Z.eqb (id p) pid) (policies db));
      split; intros; try discriminate; reflexivity.
Qed.

(** The stores a create, an update and a delete may lead to. *)
Lemma create_policy_cases (db : DB F) (now : datetime) (P : PolicySchema F) :
  (exists R, create_policy db now P
             = (mkDB (policies db
                      ++ [Policy_of_schema (policies_id_seq db) now R])
                  (policy_changes db) (policy_categories db)
                  (impact_assessments db) (policies_id_seq db + 1),
                Ok (with_id (policies_id_seq db) R))
             /\ row_accepted db (policies db)
                  (Policy_of_schema (policies_id_seq db) now R) = true)
  \/ create_policy db now P = (db, HTTPError 500 "Error creating policy")
  \/ create_policy db now P
     = (mkDB (policies db) (policy_changes db) (policy_categories db)
          (impact_assessments db) (policies_id_seq db + 1),
        HTTPError 500 "Error creating policy").
Proof.
  unfold create_policy.
  destruct (payload_has_nul P); [right; left; reflexivity|].
  destruct (store_schema P) as [kept|]; [|right; left; reflexivity].
  destruct (row_accepted db (policies db)
              (Policy_of_schema (policies_id_seq db) now kept)) eqn:Hacc.
  - left. exists kept. split; [reflexivity | exact Hacc].
  - right. right. reflexivity.
Qed.

Lemma update_policy_cases (db : DB F) (now : datetime) (pid : Z)
    (body : option (PolicySchema F)) :
  (exists old kept,
      first_by_id db pid = Some old
      /\ row_accepted db (others_of pid (policies db))
           (Policy_overwrite old now kept) = true
      /\ update_policy db now pid body
         = (mkDB (others_of pid (policies db)
                  ++ [Policy_overwrite old now kept])
              (policy_changes db) (policy_categories db)
              (impact_assessments db) (policies_id_seq db),
            Ok (to_schema (Policy_overwrite old now kept))))
  \/ (exists R, update_policy db now pid body = (db, Ok R))
  \/ (exists code,
         (code = 404 \/ code = 500)
         /\ exists detail,
              update_policy db now pid body = (db, HTTPError code detail)).
Proof.
  unfold update_policy.
  destruct (first_by_id db pid) as [old|];
    [|right; right; exists 404; split; [left; reflexivity|];
      eexists; reflexivity].
  destruct body as [P|];
    [|right; right; exists 500; split; [right; reflexivity|];
      eexists; reflexivity].
  destruct (schema_unchanged old P);
    [right; left; eexists; reflexivity|].
  destruct (payload_has_nul P);
    [right; right; exists 500; split; [right; reflexivity|];
     eexists; reflexivity|].
  destruct (store_schema P) as [kept|];
    [|right; right; exists 500; split; [right; reflexivity|];
      eexists; reflexivity].
  destruct (row_accepted db (others_of pid (policies db))
              (Policy_overwrite old now kept)) eqn:Hacc.
  - left. exists old, kept. repeat split. exact Hacc.
  - right. right. exists 500. split; [right; reflexivity|].
    eexists; reflexivity.
Qed.

Lemma delete_policy_cases (db : DB F) (pid : Z) :
  delete_policy db pid
  = (mkDB (others_of pid (policies db)) (policy_changes db)
       (policy_categories db) (impact_assessments db) (policies_id_seq db),
     Ok "Policy deleted successfully"%string)
  \/ (exists code,
         (code = 404 \/ code = 500)
         /\ exists detail,
              delete_policy db pid = (db, HTTPError code detail)).
Proof.
  unfold delete_policy.
  destruct (first_by_id db pid) as [old|] eqn:Hold;
    [|right; exists 404; split; [left; reflexivity|]; eexists; reflexivity].
  rewrite (first_by_id_key db pid Hold).
  destruct (has_dependents db pid).
  - right. exists 500. split; [right; reflexivity|]. eexists; reflexivity.
  - left. reflexivity.
Qed.

(** X9: a write that is answered with an error changes no table: a
    refused create is answered 500 and leaves every table as it was (at
    most the sequence has moved), a refused update or delete is answered
    404 or 500 and leaves the store as it was. *)
Theorem refused_write_changes_nothing (db : DB F) (now : datetime)
    (pid : Z) (P : PolicySchema F) (body : option (PolicySchema F)) :
  (forall db' code detail,
      create_policy db now P = (db', HTTPError code detail) ->
      code = 500 /\ same_tables db' db)
  /\ (forall db' code detail,
         update_policy db now pid body = (db', HTTPError code detail) ->
         (code = 404 \/ code = 500) /\ db' = db)
  /\ (forall db' code detail,
         delete_policy db pid = (db', HTTPError code detail) ->
         (code = 404 \/ code = 500) /\ db' = db).
Proof.
  split; [|split]; intros db' code detail.
  - destruct (create_policy_cases db now P) as [[R [-> _]]|[->| ->]];
      [discriminate| |];
      intros Hret; injection Hret as <- <- _;
      (split; [reflexivity|]); unfold same_tables; simpl; auto.
  - destruct (update_policy_cases db now pid body)
      as [[old [kept [_ [_ ->]]]]|[[R ->]|[c [Hc [d ->]]]]];
      [discriminate|discriminate|].
    intros Hret. injection Hret as <- <- _. auto.
  - destruct (delete_policy_cases db pid) as [->|[c [Hc [d ->]]]];
      [discriminate|].
    intros Hret. injection Hret as <- <- _. auto.
Qed.

(** X10: a write aimed at one key leaves the lookup of every other key as
    it was: after a create (whose key is the sequence value), an update or
    a delete, a GET of another key answers what it answered before. *)
Theorem writes_leave_other_keys (db : DB F) (now : datetime) (pid other : Z)
    (P : PolicySchema F) (body : option (PolicySchema F)) :
  (other <> policies_id_seq db ->
   get_policy (fst (create_policy db now P)) other = get_policy db other)
  /\ (other <> pid ->
      get_policy (fst (update_policy db now pid body)) other
      = get_policy db other)
  /\ (other <> pid ->
      get_policy (fst (delete_policy db pid)) other = get_policy db other).
Proof.
  split; [|split]; intros Hother.
  - destruct (create_policy_cases db now P) as [[R [-> _]]|[->| ->]];
      [|reflexivity|reflexivity].
    unfold get_policy, first_by_id. simpl.
    rewrite find_appended_other; [reflexivity | simpl; congruence].
  - destruct (update_policy_cases db now pid body)
      as [[old [kept [Hold [_ ->]]]]|[[R ->]|[c [_ [d ->]]]]];
      [|reflexivity|reflexivity].
    unfold get_policy, first_by_id. simpl.
    rewrite find_appended_other.
    + rewrite (find_others_of_other (policies db) Hother). reflexivity.
    + simpl. rewrite (first_by_id_key db pid Hold). congruence.
  - destruct (delete_policy_cases db pid) as [->|[c [_ [d ->]]]];
      [|reflexivity].
    unfold get_policy, first_by_id. simpl.
    rewrite (find_others_of_other (policies db) Hother). reflexivity.
Qed.

End Writes.

(** ** The store stays well formed *)

Section StoreInvariant.
Context {F : Type} `{FloatOps F}.

Lemma existsb_key_false (pid : Z) (l : list (Policy F)) :
  existsb (fun r => Z.eqb (id r) pid) l = false ->
  ~ In pid (map (@id F) l).
Proof.
  intros Hex Hin. apply in_map_iff in Hin. destruct Hin as [p [Hp Hin]].
  assert (Htrue : existsb (fun r => Z.eqb (id r) pid) l = true).
  { apply existsb_exists. exists p. split; [exact Hin|].
    apply Z.eqb_eq, Hp. }
  congruence.
Qed.

Lemma existsb_number_false (n : string) (l : list (Policy F)) :
  existsb (fun r => String.eqb (policy_number r) n) l = false ->
  ~ In n (map (@policy_number F) l).
Proof.
  intros Hex Hin. apply in_map_iff in Hin. destruct Hin as [p [Hp Hin]].
  assert (Htrue : existsb (fun r => String.eqb (policy_number r) n) l = true).
  { apply existsb_exists. exists p. split; [exact Hin|].
    apply String.eqb_eq, Hp. }
  congruence.
Qed.

Lemma accepted_fresh_number (db : DB F) (others : list (Policy F))
    (row : Policy F) :
  row_accepted db others row = true ->
  existsb (fun r => String.eqb (policy_number r) (policy_number row)) others
  = false.
Proof.
  unfold row_accepted. intros Hacc.
  apply andb_prop in Hacc. destruct Hacc as [Hacc _].
  apply andb_prop in Hacc. destruct Hacc as [_ Hnum].
  apply negb_true_iff, Hnum.
Qed.

Lemma NoDup_snoc {A} (l : list A) (x : A) :
  NoDup l -> ~ In x l -> NoDup (l ++ [x]).
Proof.
  intros Hnd Hx. induction Hnd as [|y l Hy Hnd IH]; simpl.
  - constructor; [tauto | constructor].
  - constructor.
    + rewrite in_app_iff. simpl. intros [Hin|[Heq|[]]].
      * contradiction.
      * subst y. apply Hx. left. reflexivity.
    + apply IH. intros Hin. apply Hx. right. exact Hin.
Qed.

Lemma NoDup_map_filter {A B} (f : A -> B) (g : A -> bool) (l : list A) :
  NoDup (map f l) -> NoDup (map f (filter g l)).
Proof.
  induction l as [|x l IH]; simpl; [auto|].
  intros Hnd. inversion Hnd as [|? ? Hx Hrest]; subst.
  destruct (g x); simpl; [|apply IH, Hrest].
  constructor; [|apply IH, Hrest].
  intros Hin. apply Hx. apply in_map_iff in Hin.
  destruct Hin as [y [Hy Hin]]. apply filter_In in Hin.
  apply in_map_iff. exists y. tauto.
Qed.

(** X12: the three writes keep the store well formed: from a store whose
    keys are distinct, whose policy numbers are distinct and whose
    sequence is ahead of every key, each of create, update and delete,
    accepted or refused, leads to such a store again. *)
Theorem writes_keep_store_ok (db : DB F) (now : datetime) (pid : Z)
    (P : PolicySchema F) (body : option (PolicySchema F)) :
  store_ok db ->
  store_ok (fst (create_policy db now P))
  /\ store_ok (fst (update_policy db now pid body))
  /\ store_ok (fst (delete_policy db pid)).
Proof.
  intros [Hids [Hnums Hseq]]. split; [|split].
  - destruct (create_policy_cases db now P) as [[R [-> Hacc]]|[->| ->]];
      unfold store_ok; simpl.
    + rewrite !map_app. simpl. split; [|split].
      * apply NoDup_snoc; [exact Hids|].
        apply existsb_key_false.
        apply (@accepted_fresh_key F db _ _ Hacc).
      * apply NoDup_snoc; [exact Hnums|].
        apply existsb_number_false.
        apply (@accepted_fresh_number db _ _ Hacc).
      * apply Forall_app. split.
        -- revert Hseq. apply Forall_impl. intros p Hp. lia.
        -- constructor; [simpl; lia | constructor].
    + auto.
    + split; [exact Hids|]. split; [exact Hnums|].
      revert Hseq. apply Forall_impl. intros p Hp. lia.
  - destruct (update_policy_cases db now pid body)
      as [[old [kept [Hold [Hacc ->]]]]|[[R ->]|[c [_ [d ->]]]]];
      [|unfold store_ok; auto|unfold store_ok; auto].
    pose proof (first_by_id_key db pid Hold) as Hkey.
    unfold store_ok. simpl. rewrite !map_app. simpl. split; [|split].
    + apply NoDup_snoc; [apply NoDup_map_filter, Hids|].
      rewrite Hkey. apply existsb_key_false, existsb_others_of.
    + apply NoDup_snoc; [apply NoDup_map_filter, Hnums|].
      apply existsb_number_false.
      apply (@accepted_fresh_number db _ _ Hacc).
    + apply Forall_app. split.
      * rewrite Forall_forall in *. intros x Hx.
        apply filter_In in Hx. apply Hseq, Hx.
      * constructor; [|constructor]. simpl.
        rewrite Forall_forall in Hseq. apply Hseq.
        unfold first_by_id in Hold. apply find_some in Hold. apply Hold.
  - destruct (delete_policy_cases db pid) as [->|[c [_ [d ->]]]];
      [|unfold store_ok; auto].
    unfold store_ok, others_of. simpl. split; [|split].
    + apply NoDup_map_filter, Hids.
    + apply NoDup_map_filter, Hnums.
    + rewrite Forall_forall in *. intros x Hx.
      apply filter_In in Hx. apply Hseq, Hx.
Qed.

(** X13: in a well-formed store a create is refused only for what the
    payload holds: it is accepted whenever no string of the payload holds
    a NUL, every column keeps its string (each is within the column's
    length, or beyond it by spaces only), the policy number as kept is
    unused and the category exists; the row count then grows by one. *)
Theorem create_accepted_in_store_ok (db : DB F) (now : datetime)
    (P kept : PolicySchema F) :
  store_ok db ->
  payload_has_nul P = false ->
  store_schema P = Some kept ->
  existsb (fun r => String.eqb (policy_number r) (s_policy_number kept))
    (policies db) = false ->
  category_fk_ok db (Policy_of_schema (policies_id_seq db) now kept) = true ->
  exists db1,
    create_policy db now P = (db1, Ok (with_id (policies_id_seq db) kept))
    /\ List.length (policies db1) = S (List.length (policies db)).
Proof.
  intros [_ [_ Hseq]] Hnul Hkept Hnum Hfk.
  assert (Hkey : existsb (fun r => Z.eqb (id r) (policies_id_seq db))
                   (policies db) = false).
  { destruct (existsb (fun r => Z.eqb (id r) (policies_id_seq db))
                (policies db)) eqn:Hex; [|reflexivity].
    apply existsb_exists in Hex. destruct Hex as [p [Hin Heq]].
    apply Z.eqb_eq in Heq. rewrite Forall_forall in Hseq.
    specialize (Hseq p Hin). lia. }
  assert (Hacc : row_accepted db (policies db)
                   (Policy_of_schema (policies_id_seq db) now kept) = true).
  { unfold row_accepted. rewrite Hfk. simpl. rewrite Hkey, Hnum.
    reflexivity. }
  rewrite (create_policy_runs db now P Hnul Hkept Hacc).
  eexists. split; [reflexivity|].
  simpl. rewrite length_app. simpl. lia.
Qed.

End StoreInvariant.

(** ** Search: wildcards and letter case *)

Lemma lower_ascii_idem (c : ascii) :
  lower_ascii (lower_ascii c) = lower_ascii c.
Proof. destruct c as [[] [] [] [] [] [] [] []]; reflexivity. Qed.

Lemma lower_ascii_backslash (c : ascii) :
  Ascii.eqb (lower_ascii c) "\"%char = Ascii.eqb c "\"%char.
Proof. destruct c as [[] [] [] [] [] [] [] []]; reflexivity. Qed.

Lemma like_tok_of_lower (c : ascii) :
  like_tok_of (lower_ascii c) = lower_tok (like_tok_of c).
Proof. destruct c as [[] [] [] [] [] [] [] []]; reflexivity. Qed.

Lemma ci_eqb_lower (c d : ascii) : ci_eqb (lower_ascii c) d = ci_eqb c d.
Proof. unfold ci_eqb. rewrite lower_ascii_idem. reflexivity. Qed.

Lemma like_parse_lower (p : list ascii) (escaped : bool) :
  like_parse escaped (map lower_ascii p)
  = option_map (map lower_tok) (like_parse escaped p).
Proof.
  revert escaped. induction p as [|c p IH]; intros escaped; simpl.
  - destruct escaped; reflexivity.
  - destruct escaped.
    + rewrite IH. destruct (like_parse false p); reflexivity.
    + rewrite lower_ascii_backslash.
      destruct (Ascii.eqb c "\"%char); [apply IH|].
      rewrite IH, like_tok_of_lower.
      destruct (like_parse false p); reflexivity.
Qed.

Lemma like_match_lower (p : list like_tok) (s : list ascii) :
  like_match (map lower_tok p) s = like_match p s.
Proof.
  revert s. induction p as [|t p IH]; intros s; [reflexivity|].
  destruct t as [| |c].
  - change (map lower_tok (AnyRun :: p)) with (AnyRun :: map lower_tok p).
    induction s as [|d s IHs].
    + rewrite !like_match_run, IH. reflexivity.
    + rewrite (like_match_run (map lower_tok p) (d :: s)).
      rewrite (like_match_run p (d :: s)). rewrite IH, IHs. reflexivity.
  - destruct s as [|d s]; simpl; [reflexivity | apply IH].
  - destruct s as [|d s]; simpl; [reflexivity|].
    rewrite ci_eqb_lower, IH. reflexivity.
Qed.

Lemma list_ascii_of_lower_string (q : string) :
  list_ascii_of_string (lower_string q)
  = map lower_ascii (list_ascii_of_string q).
Proof.
  induction q as [|c q IH]; simpl; [reflexivity | rewrite IH; reflexivity].
Qed.

Lemma ilike_lower_query (q : string) (col : option string) :
  ilike col (String.append "%" (String.append (lower_string q) "%"))
  = ilike col (String.append "%" (String.append q "%")).
Proof.
  unfold ilike.
  assert (Hpat :
    list_ascii_of_string
      (String.append "%" (String.append (lower_string q) "%"))
    = map lower_ascii
        (list_ascii_of_string (String.append "%" (String.append q "%")))).
  { rewrite !list_ascii_of_string_append, list_ascii_of_lower_string.
    rewrite !map_app. reflexivity. }
  rewrite Hpat, like_parse_lower.
  destruct (like_parse false
              (list_ascii_of_string
                 (String.append "%" (String.append q "%"))))
    as [toks|]; simpl; [|reflexivity].
  destruct col as [s|]; simpl; [|reflexivity].
  rewrite like_match_lower. reflexivity.
Qed.

Lemma like_match_runs (s : list ascii) :
  like_match [AnyRun; AnyRun; AnyRun] s = true.
Proof.
  assert (H2 : forall t, like_match [AnyRun; AnyRun] t = true).
  { intros t. rewrite like_match_run, like_match_any. reflexivity. }
  rewrite like_match_run, H2. reflexivity.
Qed.

Lemma filter_all {A} (f : A -> bool) (l : list A) :
  (forall x, In x l -> f x = true) -> filter f l = l.
Proof.
  induction l as [|x l IH]; simpl; [reflexivity|].
  intros Hall. rewrite (Hall x (or_introl eq_refl)).
  rewrite IH; [reflexivity|]. intros y Hy. apply Hall. right. exact Hy.
Qed.

Section SearchEdges.
Context {F : Type} `{FloatOps F}.

Lemma search_rows_lower (q : string) (l : list (Policy F)) :
  search_rows (lower_string q) l = search_rows q l.
Proof.
  induction l as [|p l IH]; simpl; [reflexivity|].
  unfold search_condition. rewrite !ilike_lower_query, IH. reflexivity.
Qed.

(** X14: the search pays no attention to the letter case of the query:
    for every query string, the query and its lower-case form get the same
    answer. *)
Theorem search_ignores_query_case (db : DB F) (q : string)
    (skip limit : option Z) :
  search_policies db (lower_string q) skip limit
  = search_policies db q skip limit.
Proof.
  unfold search_policies. rewrite search_rows_lower. reflexivity.
Qed.

Lemma search_rows_everything_empty (l : list (Policy F)) :
  search_rows "" l = Some l.
Proof.
  rewrite (@search_rows_plain F "" l eq_refl).
  rewrite filter_all; [reflexivity|]. intros p _.
  unfold spec_search_match, ci_occurs.
  destruct (list_ascii_of_string (title p)); reflexivity.
Qed.

Lemma search_rows_everything_percent (l : list (Policy F)) :
  search_rows "%" l = Some l.
Proof.
  induction l as [|p l IH]; [reflexivity|].
  change (search_rows "%" (p :: l))
    with (match search_condition "%" p, search_rows "%" l with
          | Some c, Some r => Some (if sql_is_true c then p :: r else r)
          | _, _ => None
          end).
  rewrite IH.
  assert (Hc : exists b c,
             search_condition "%" p
             = Some (sql_or (sql_or (Some true) b) c)).
  { unfold search_condition, ilike.
    change (like_parse false
              (list_ascii_of_string
                 (String.append "%" (String.append "%" "%"))))
      with (Some [AnyRun; AnyRun; AnyRun]).
    unfold sql_cmp at 1. rewrite like_match_runs. eauto. }
  destruct Hc as [b [c Hc]]. rewrite Hc.
  destruct b as [[|]|], c as [[|]|]; reflexivity.
Qed.

(** X15: the empty query and the query [%] select every policy: for a
    [skip] below 2^63, each is answered with the requested page of the
    whole table. *)
Theorem search_empty_or_percent_lists_all (db : DB F)
    (skip limit : option Z) (s n : Z) :
  Query_int 0 (Some 0) None skip = Ok s ->
  Query_int 100 (Some 1) (Some 1000) limit = Ok n ->
  s <= bigint_max ->
  search_policies db "" skip limit = Ok (offset_limit s n (policies db))
  /\ search_policies db "%" skip limit = Ok (offset_limit s n (policies db)).
Proof.
  intros Hs Hn Hbig. unfold search_policies.
  rewrite Hs, Hn.
  rewrite search_rows_everything_empty, search_rows_everything_percent.
  rewrite (paginate_small n (policies db) Hbig). split; reflexivity.
Qed.

End SearchEdges.

(** ** What LIMIT leaves out *)

Section LimitFront.
Variable A : Type.
Variable leb : A -> A -> bool.
Hypothesis leb_total : forall x y, leb x y = true \/ leb y x = true.
Hypothesis leb_trans :
  forall x y z, leb x y = true -> leb y z = true -> leb x z = true.

Lemma order_insert_length (x : A) (l : list A) :
  List.length (order_insert leb x l) = S (List.length l).
Proof.
  induction l as [|y l IH]; simpl; [reflexivity|].
  destruct (leb x y); simpl; [reflexivity | rewrite IH; reflexivity].
Qed.

Lemma order_by_length (l : list A) :
  List.length (order_by leb l) = List.length l.
Proof.
  induction l as [|x l IH]; simpl; [reflexivity|].
  rewrite order_insert_length, IH. reflexivity.
Qed.

Lemma sorted_app_cross (R : A -> A -> Prop) (l1 l2 : list A) (x y : A) :
  StronglySorted R (l1 ++ l2) -> In x l1 -> In y l2 -> R x y.
Proof.
  induction l1 as [|z l1 IH]; simpl; [tauto|].
  intros Hs Hx Hy. inversion Hs as [|? ? Htail Hhead]; subst.
  destruct Hx as [->|Hx]; [|apply IH; assumption].
  rewrite Forall_forall in Hhead. apply Hhead.
  apply in_or_app. right. exact Hy.
Qed.

Lemma limit_keeps_front (n : nat) (l : list A) (x y : A) :
  In x (firstn n (order_by leb l)) ->
  In y l ->
  ~ In y (firstn n (order_by leb l)) ->
  leb x y = true.
Proof.
  intros Hx Hy Hout.
  apply (order_by_In leb) in Hy.
  rewrite <- (firstn_skipn n (order_by leb l)) in Hy.
  apply in_app_or in Hy. destruct Hy as [Hy|Hy]; [contradiction|].
  apply (@sorted_app_cross (ordered_by leb) (firstn n (order_by leb l))
           (skipn n (order_by leb l)) x y); [|exact Hx | exact Hy].
  rewrite firstn_skipn. apply order_by_sorted; assumption.
Qed.

End LimitFront.

Section LeftOut.
Context {F : Type} `{FloatOps F}.

Lemma high_risk_condition_complete (p : Policy F) :
  is_high_risk p -> sql_is_true (high_risk_condition p) = true.
Proof.
  unfold is_high_risk, high_risk_condition, sql_cmp.
  intros [[x [Hx Hlt]]|[c [Hc Hlt]]].
  - rewrite Hx, Hlt. destruct (impact_confidence p) as [c|]; reflexivity.
  - rewrite Hc, Hlt.
    destruct (estimated_impact p) as [x|]; [|reflexivity].
    destruct (fltb x (fof_Z (-100))); reflexivity.
Qed.

(** X16: the limit of the high-risk listing cuts from the far end: a
    high-risk policy of the table that is not returned ranks, by
    [estimated_impact] ascending, at or after every returned one, and the
    page holds [limit] rows unless fewer qualify. *)
Theorem high_risk_limit_keeps_lowest {HO : @FloatOrder F _} (db : DB F)
    (limit : option Z) (rows : list (Policy F)) :
  get_high_risk_policies db limit = Ok rows ->
  (forall r t,
      In r rows -> In t (policies db) -> is_high_risk t -> ~ In t rows ->
      impact_ascending r t)
  /\ exists n,
       Query_int 50 (Some 1) (Some 500) limit = Ok n
       /\ List.length rows
          = Nat.min (Z.to_nat n)
              (List.length
                 (filter (fun p => sql_is_true (high_risk_condition p))
                    (policies db))).
Proof.
  unfold get_high_risk_policies.
  destruct (Query_int_cases 50 (Some 1) (Some 500) limit) as [[n Hn]|Hn];
    rewrite Hn; [|discriminate].
  intros Hrows. injection Hrows as <-. split.
  - intros r t Hr Ht Hrisk Hout. unfold impact_ascending.
    apply (@limit_keeps_front (Policy F)
             (fun a b =>
                asc_nulls_last fleb (estimated_impact a) (estimated_impact b))
             (fun x y =>
                asc_nulls_last_total fleb fleb_total (estimated_impact x)
                  (estimated_impact y))
             (fun x y z =>
                asc_nulls_last_trans fleb fleb_trans (estimated_impact x)
                  (estimated_impact y) (estimated_impact z))
             (Z.to_nat n) _ r t Hr); [|exact Hout].
    apply filter_In. split; [exact Ht|].
    apply high_risk_condition_complete, Hrisk.
  - exists n. split; [reflexivity|].
    rewrite length_firstn, order_by_length. reflexivity.
Qed.

Lemma recent_condition_complete (cutoff : datetime) (p : Policy F) :
  is_recent cutoff p ->
  sql_is_true (sql_cmp Z.geb (proposed_date p) cutoff) = true.
Proof.
  unfold is_recent, sql_cmp. intros [d [Hd Hle]]. rewrite Hd. simpl.
  apply Z.geb_le in Hle. rewrite Hle. reflexivity.
Qed.

(** X17: the limit of the recent listing cuts the oldest: a policy of the
    table proposed within the window that is not returned was proposed no
    later than any returned one, and the page holds [limit] rows unless
    fewer qualify. *)
Theorem recent_limit_keeps_newest (db : DB F) (now : datetime)
    (days limit : option Z) (rows : list (Policy F)) :
  get_recent_policies db now days limit = Ok rows ->
  exists d n,
    Query_int 30 (Some 1) (Some 365) days = Ok d
    /\ Query_int 50 (Some 1) (Some 500) limit = Ok n
    /\ (forall r t,
           In r rows -> In t (policies db) ->
           is_recent (now - timedelta_days d) t -> ~ In t rows ->
           date_descending r t)
    /\ List.length rows
       = Nat.min (Z.to_nat n)
           (List.length
              (filter
                 (fun p =>
                    sql_is_true
                      (sql_cmp Z.geb (proposed_date p)
                         (now - timedelta_days d)))
                 (policies db))).
Proof.
  unfold get_recent_policies.
  destruct (Query_int_cases 30 (Some 1) (Some 365) days) as [[d Hd]|Hd];
    rewrite Hd; [|discriminate].
  destruct (Query_int_cases 50 (Some 1) (Some 500) limit) as [[n Hn]|Hn];
    rewrite Hn; [|discriminate].
  intros Hrows. injection Hrows as <-.
  exists d, n. split; [reflexivity|]. split; [reflexivity|]. split.
  - intros r t Hr Ht Hrecent Hout.
    pose proof Hr as Hr'.
    apply firstn_In, order_by_In, filter_In in Hr'.
    destruct Hr' as [_ Hrc]. apply recent_condition_sound in Hrc.
    destruct Hrc as [x [Hx _]]. destruct Hrecent as [y [Hy Hle]].
    assert (Hord :
      desc_nulls_first Z.leb (proposed_date r) (proposed_date t) = true).
    { apply (@limit_keeps_front (Policy F)
               (fun a b =>
                  desc_nulls_first Z.leb (proposed_date a) (proposed_date b))
               (fun a b =>
                  desc_nulls_first_total (proposed_date a) (proposed_date b))
               (fun a b c =>
                  @desc_nulls_first_trans (proposed_date a) (proposed_date b)
                    (proposed_date c))
               (Z.to_nat n) _ r t Hr); [|exact Hout].
      apply filter_In. split; [exact Ht|].
      apply recent_condition_complete. exists y. auto. }
    rewrite Hx, Hy in Hord. simpl in Hord. apply Z.leb_le in Hord.
    exists x, y. auto.
  - rewrite length_firstn, order_by_length. reflexivity.
Qed.

End LeftOut.

(** ** The companies router *)

Lemma skipn_sorted {A} (R : A -> A -> Prop) (n : nat) (l : list A) :
  StronglySorted R l -> StronglySorted R (skipn n l).
Proof.
  revert l. induction n as [|n IH]; intros l Hl; [exact Hl|].
  destruct l as [|x l]; [constructor|].
  inversion Hl; subst. simpl. apply IH. assumption.
Qed.

Section CompanyListings.
Variables Company CompanyProfile FinancialMetrics : Type.
Variable co_id : Company -> Z.
Variable co_industry : Company -> string.
Variable co_headquarters_country : Company -> string.
Variable cp_company_id : CompanyProfile -> Z.
Variable fm_company_id : FinancialMetrics -> Z.
Variable fm_date : FinancialMetrics -> datetime.

(** X18: the financial metrics of a company are answered newest first:
    every returned row belongs to the requested company, the dates never
    increase along the page, and a company without metrics, or an unknown
    one, gets a page without rows; the only other answers are the
    validation error 422 and the failure 500, and a request whose [skip]
    and [limit] are accepted, with [skip] below 2^63, is answered with a
    page. *)
Theorem financial_metrics_newest_first
    (db : CompanyDB Company CompanyProfile FinancialMetrics)
    (company_id : Z) (skip limit : option Z) :
  match get_company_financial_metrics fm_company_id fm_date db company_id
          skip limit with
  | Ok rows =>
      Forall (fun m => fm_company_id m = company_id) rows
      /\ StronglySorted (fun a b => fm_date b <= fm_date a) rows
      /\ incl rows (financial_metrics db)
      /\ ((forall m, In m (financial_metrics db) ->
                     fm_company_id m <> company_id) -> rows = [])
  | HTTPError code _ => code = 422 \/ code = 500
  end
  /\ (forall s n,
         Query_int 0 (Some 0) None skip = Ok s ->
         Query_int 100 (Some 1) (Some 1000) limit = Ok n ->
         s <= bigint_max ->
         exists rows,
           get_company_financial_metrics fm_company_id fm_date db company_id
             skip limit
           = Ok rows).
Proof.
  unfold get_company_financial_metrics. split.
  2: { intros s n Hs Hn Hbig. rewrite Hs, Hn.
       rewrite (paginate_small n _ Hbig). eexists. reflexivity. }
  destruct (Query_int_cases 0 (Some 0) None skip) as [[s Hs]|Hs];
    rewrite Hs; [|left; reflexivity].
  destruct (Query_int_cases 100 (Some 1) (Some 1000) limit) as [[n Hn]|Hn];
    rewrite Hn; [|left; reflexivity].
  set (sel := filter (fun m => Z.eqb (fm_company_id m) company_id)
                (financial_metrics db)).
  set (byd := fun a b : FinancialMetrics => Z.leb (fm_date b) (fm_date a)).
  destruct (paginate s n (order_by byd sel)) as [page|] eqn:Hpage;
    [|right; reflexivity].
  apply paginate_some in Hpage. subst page.
  assert (Hin : forall m, In m (offset_limit s n (order_by byd sel)) ->
                          In m sel).
  { intros m Hm. apply offset_limit_In in Hm.
    apply (proj1 (@order_by_In _ byd m sel)) in Hm. exact Hm. }
  split; [|split; [|split]].
  - rewrite Forall_forall. intros m Hm. apply Hin in Hm.
    apply filter_In in Hm. apply Z.eqb_eq, Hm.
  - unfold offset_limit. apply firstn_sorted, skipn_sorted.
    apply sorted_weaken with (R := ordered_by byd).
    + intros a b _ _ Hab. apply Z.leb_le, Hab.
    + apply order_by_sorted.
      * intros a b. unfold byd.
        destruct (Z.leb_spec (fm_date b) (fm_date a)),
                 (Z.leb_spec (fm_date a) (fm_date b)); auto; lia.
      * intros a b c. unfold byd. rewrite !Z.leb_le. lia.
  - intros m Hm. apply Hin in Hm. apply filter_In in Hm. apply Hm.
  - intros Hnone.
    assert (Hall : forall m, ~ In m (offset_limit s n (order_by byd sel))).
    { intros m Hm. apply Hin in Hm. apply filter_In in Hm.
      destruct Hm as [Hm Heq]. apply Z.eqb_eq in Heq.
      exact (Hnone m Hm Heq). }
    destruct (offset_limit s n (order_by byd sel)) as [|m rest];
      [reflexivity|].
    exfalso. apply (Hall m). left. reflexivity.
Qed.


(** X20: both single-row lookups answer with a stored row that carries
    the requested company key, and with 404 exactly when no row of their
    table carries it; the profile is looked up by its [company_id], so a
    stored company without a profile row gets 404 there. *)
Theorem company_lookups_by_key
    (db : CompanyDB Company CompanyProfile FinancialMetrics)
    (company_id : Z) :
  match get_company co_id db company_id with
  | Ok c => In c (companies db) /\ co_id c = company_id
  | HTTPError code _ =>
      code = 404 /\ forall c, In c (companies db) -> co_id c <> company_id
  end
  /\ match get_company_profile cp_company_id db company_id with
     | Ok r => In r (company_profiles db) /\ cp_company_id r = company_id
     | HTTPError code _ =>
         code = 404
         /\ forall r, In r (company_profiles db) ->
                      cp_company_id r <> company_id
     end.
Proof.
  unfold get_company, get_company_profile. split.
  - destruct (find (fun c => Z.eqb (co_id c) company_id) (companies db))
      as [c|] eqn:Hc.
    + apply find_some in Hc. rewrite Z.eqb_eq in Hc. exact Hc.
    + split; [reflexivity|]. intros c Hin Heq.
      pose proof (find_none _ _ Hc c Hin) as Hne. simpl in Hne.
      apply Z.eqb_neq in Hne. contradiction.
  - destruct (find (fun r => Z.eqb (cp_company_id r) company_id)
                (company_profiles db)) as [r|] eqn:Hr.
    + apply find_some in Hr. rewrite Z.eqb_eq in Hr. exact Hr.
    + split; [reflexivity|]. intros r Hin Heq.
      pose proof (find_none _ _ Hr r Hin) as Hne. simpl in Hne.
      apply Z.eqb_neq in Hne. contradiction.
Qed.

End CompanyListings.

(** ** The properties above on sample stores *)


Lemma status_filter_selects_member_witness :
  get_policies (db_of risk_rows_enacted) None None None None
    (Some "ENACTED"%string) None None None
  = Ok [enacted_row; described_row].
Proof.
  refine (proj2 (@status_filter_selects_member Q (db_of risk_rows_enacted)
                   None None ENACTED)
            0 100 eq_refl eq_refl _).
  discriminate.
Defined.

Lemma get_policy_finds_requested_key_witness :
  s_id (to_schema enacted_row) = Some 1
  /\ get_policy (db_of [enacted_row]) 7 = HTTPError 404 "Policy not found".
Proof.
  split.
  - apply (proj1 (proj1 (@get_policy_finds_requested_key Q
                           (db_of [enacted_row]) 1)
                    (to_schema enacted_row) eq_refl)).
  - apply (proj2 (proj2 (@get_policy_finds_requested_key Q
                           (db_of [enacted_row]) 7))).
    intros p [<-|[]]. discriminate.
Defined.

Lemma refused_write_changes_nothing_witness :
  same_tables (fst (create_policy (db_of [enacted_row]) 5 clashing_schema))
    (db_of [enacted_row])
  /\ fst (update_policy (db_of [enacted_row]) 5 9 None) = db_of [enacted_row]
  /\ fst (delete_policy (db_of [enacted_row]) 9) = db_of [enacted_row].
Proof.
  destruct (@refused_write_changes_nothing Q Q_FloatOps
              (db_of [enacted_row]) 5 9 clashing_schema None)
    as [Hc [Hu Hd]].
  split; [|split].
  - apply (proj2 (Hc _ 500 "Error creating policy" eq_refl)).
  - apply (proj2 (Hu _ 404 "Policy not found" eq_refl)).
  - apply (proj2 (Hd _ 404 "Policy not found" eq_refl)).
Defined.

Lemma writes_leave_other_keys_witness :
  get_policy (fst (create_policy (db_of risk_rows) 0 sample_schema)) 3
  = get_policy (db_of risk_rows) 3
  /\ get_policy (fst (update_policy (db_of risk_rows) 0 2
                        (Some sample_schema))) 3
     = get_policy (db_of risk_rows) 3
  /\ get_policy (fst (delete_policy (db_of risk_rows) 2)) 3
     = get_policy (db_of risk_rows) 3.
Proof.
  destruct (@writes_leave_other_keys Q Q_FloatOps (db_of risk_rows) 0 2 3
              sample_schema (Some sample_schema)) as [Hc [Hu Hd]].
  split; [apply Hc; discriminate|].
  split; [apply Hu; discriminate | apply Hd; discriminate].
Defined.

Lemma writes_keep_store_ok_witness :
  store_ok (db_of [enacted_row])
  /\ store_ok (fst (create_policy (db_of [enacted_row]) 5 sample_schema))
  /\ store_ok (fst (update_policy (db_of [enacted_row]) 5 1
                      (Some sample_update)))
  /\ store_ok (fst (delete_policy (db_of [enacted_row]) 1)).
Proof.
  assert (Hok : store_ok (db_of [enacted_row])).
  { unfold store_ok. simpl. split; [|split].
    - constructor; [intros [] | constructor].
    - constructor; [intros [] | constructor].
    - constructor; [simpl; lia | constructor]. }
  split; [exact Hok|].
  apply (@writes_keep_store_ok Q Q_FloatOps (db_of [enacted_row]) 5 1
           sample_schema (Some sample_update) Hok).
Defined.

Lemma create_accepted_in_store_ok_witness :
  exists db1,
    create_policy (db_of [enacted_row]) 5 sample_schema
    = (db1, Ok (with_id 2 sample_schema))
    /\ List.length (policies db1) = 2%nat.
Proof.
  apply (@create_accepted_in_store_ok Q (db_of [enacted_row]) 5
           sample_schema sample_schema); try reflexivity.
  unfold store_ok. simpl. split; [|split].
  - constructor; [intros [] | constructor].
  - constructor; [intros [] | constructor].
  - constructor; [simpl; lia | constructor].
Defined.

Lemma search_empty_or_percent_lists_all_witness :
  search_policies (db_of risk_rows_enacted) "" (Some 1) (Some 1)
  = Ok [described_row]
  /\ search_policies (db_of risk_rows_enacted) "%" (Some 1) (Some 1)
     = Ok [described_row].
Proof.
  apply (@search_empty_or_percent_lists_all Q (db_of risk_rows_enacted)
           (Some 1) (Some 1) 1 1); [reflexivity | reflexivity | discriminate].
Defined.

Lemma high_risk_limit_keeps_lowest_witness :
  get_high_risk_policies (db_of risk_rows) (Some 1)
  = Ok [sample_row 3 "r3" None DRAFT (Some 100) (Some (-300 # 1)) None None]
  /\ impact_ascending
       (sample_row 3 "r3" None DRAFT (Some 100) (Some (-300 # 1)) None None)
       (sample_row 1 "r1" None DRAFT (Some 500) (Some (-150 # 1))
          (Some (9 # 10)) None).
Proof.
  split; [reflexivity|].
  apply (proj1 (@high_risk_limit_keeps_lowest Q Q_FloatOps Qle_bool_order
                  (db_of risk_rows) (Some 1) _ eq_refl)).
  - left. reflexivity.
  - left. reflexivity.
  - left. exists (-150 # 1). split; reflexivity.
  - intros [E|[]]. apply (f_equal (@id Q)) in E. discriminate E.
Defined.

Lemma recent_limit_keeps_newest_witness :
  get_recent_policies (db_of dated_rows) 86400000600 (Some 1) (Some 1)
  = Ok [sample_row 2 "d2" None DRAFT (Some 900) None None None]
  /\ date_descending
       (sample_row 2 "d2" None DRAFT (Some 900) None None None)
       (sample_row 3 "d3" None DRAFT (Some 700) None None None).
Proof.
  split; [reflexivity|].
  destruct (@recent_limit_keeps_newest Q (db_of dated_rows) 86400000600
              (Some 1) (Some 1) _ eq_refl)
    as [d [n [Hd [Hn [Hleft _]]]]].
  injection Hd as <-. apply Hleft.
  - left. reflexivity.
  - right. right. left. reflexivity.
  - exists 700. split; [reflexivity | vm_compute; discriminate].
  - intros [E|[]]. apply (f_equal (@id Q)) in E. discriminate E.
Defined.

Lemma financial_metrics_newest_first_witness :
  get_company_financial_metrics (@fst Z Z) (@snd Z Z) sample_companies 1
    None None
  = Ok [(1, 500); (1, 400); (1, 300)]
  /\ get_company_financial_metrics (@fst Z Z) (@snd Z Z) sample_companies 9
       None None
     = Ok [].
Proof.
  split; [reflexivity|].
  destruct (@financial_metrics_newest_first _ _ _ (@fst Z Z) (@snd Z Z)
              sample_companies 9 None None) as [Hm _].
  destruct (get_company_financial_metrics (@fst Z Z) (@snd Z Z)
              sample_companies 9 None None) as [rows|code detail] eqn:E;
    [|discriminate E].
  destruct Hm as [_ [_ [_ Hnone]]]. rewrite Hnone; [reflexivity|].
  intros m Hin. simpl in Hin.
  destruct Hin as [<-|[<-|[<-|[<-|[]]]]]; discriminate.
Defined.

